(** * AdultBlocker: hosts-file block editor, state store and timer gate

    A shallow embedding of [app/hosts_manager.py], [app/state_store.py] and
    the three gated handlers of [app/ui.py], followed by the properties the
    specification states about them.

    Python values are modelled as follows.
    - [str] is a list of Unicode code points ([pystr]); [strip], [splitlines],
      [startswith], [endswith], [in], [split(sep, 1)] and ["\n".join] are
      written out on that representation.
    - an exception is a value of [exn]; a call that may raise returns a
      [result].
    - a [set] of strings is a [gset pystr]; [sorted] is a merge sort under the
      code-point order.
    - files are explicit state: [hosts_fs] for the hosts file, [state_fs] for
      the application's data directory.
    - [time.time()] is an argument [now]. In [Store] and [UI] timestamps
      are exact rationals and every write to the data directory succeeds;
      [Binary64] has the timer's two functions on binary64 floats, and
      [Checked] has [_write_state] and [load] in a directory that may
      refuse a write. *)

From Stdlib Require Import List NArith ZArith QArith Lqa SpecFloat String Ascii Lia Bool.
From stdpp Require Import base decidable option list sorting gmap.
Import ListNotations.

Set Default Proof Using "Type".

(* ===================================================================== *)
(** * Exceptions *)
(* ===================================================================== *)

Inductive exn : Type :=
| PermissionError
| FileNotFoundError
| ValueError
| IndexError
| TypeError
| AttributeError
| JSONDecodeError
| OverflowError.

Inductive result (A : Type) : Type :=
| Ok (a : A)
| Raise (e : exn).

Arguments Ok {A} a.
Arguments Raise {A} e.

#[global] Instance result_ret : MRet result := fun A a => Ok a.
#[global] Instance result_bind : MBind result :=
  fun A B f m => match m with Ok a => f a | Raise e => Raise e end.

(** [try: body except Exception: handler]. *)
Definition try_except {A : Type} (body : result A) (handler : A) : A :=
  match body with Ok a => a | Raise _ => handler end.

(* ===================================================================== *)
(** * Python strings *)
(* ===================================================================== *)

Module PyStr.

(** A string is its sequence of code points. *)
Definition pystr : Type := list N.

(** The literal [s], every character of which is ASCII. *)
Definition py (s : string) : pystr := map N_of_ascii (list_ascii_of_string s).

(** [str.isspace] on one character (the Unicode white-space code points). *)
Definition isspace (c : N) : bool :=
  ((9 <=? c) && (c <=? 13) || (28 <=? c) && (c <=? 32) || (c =? 133)
   || (c =? 160) || (c =? 5760) || (8192 <=? c) && (c <=? 8202)
   || (c =? 8232) || (c =? 8233) || (c =? 8239) || (c =? 8287)
   || (c =? 12288))%N.

(** The line boundaries of [str.splitlines]. *)
Definition is_linebreak (c : N) : bool :=
  ((10 <=? c) && (c <=? 13) || (28 <=? c) && (c <=? 30) || (c =? 133)
   || (c =? 8232) || (c =? 8233))%N.

Fixpoint lstrip (s : pystr) : pystr :=
  match s with
  | [] => []
  | c :: s' => if isspace c then lstrip s' else s
  end.

Definition rstrip (s : pystr) : pystr := rev (lstrip (rev s)).

(** [s.strip()] *)
Definition strip (s : pystr) : pystr := rstrip (lstrip s).

(** [s.startswith(p)] *)
Fixpoint startswith (p s : pystr) : bool :=
  match p, s with
  | [], _ => true
  | _ :: _, [] => false
  | a :: p', b :: s' => (a =? b)%N && startswith p' s'
  end.

(** [s.endswith(p)] *)
Definition endswith (p s : pystr) : bool := startswith (rev p) (rev s).

(** [sep in s] *)
Fixpoint contains (sep s : pystr) : bool :=
  startswith sep s
  || match s with
     | [] => false
     | _ :: s' => contains sep s'
     end.

(** [s.find(sep)], [None] standing for -1. *)
Fixpoint find (sep s : pystr) : option nat :=
  if startswith sep s then Some 0
  else match s with
       | [] => None
       | _ :: s' => option_map S (find sep s')
       end.

(** [s.split(sep, 1)] for a non-empty separator: the text before and the
    text after the leftmost occurrence, or [s] alone when there is none. *)
Definition split1 (sep s : pystr) : list pystr :=
  match find sep s with
  | None => [s]
  | Some i => [firstn i s; skipn (i + length sep) s]
  end.

(** [s.splitlines()]: [cur] is the line being read, last character first.
    A carriage return directly followed by a line feed is one boundary,
    and a final boundary opens no further line. *)
Fixpoint splitlines_from (cur : pystr) (s : pystr) : list pystr :=
  match s with
  | [] => match cur with [] => [] | _ :: _ => [rev cur] end
  | c :: s' =>
      if is_linebreak c then
        rev cur ::
          match s' with
          | c' :: s'' =>
              if ((c =? 13) && (c' =? 10))%N then splitlines_from [] s''
              else splitlines_from [] s'
          | [] => splitlines_from [] s'
          end
      else splitlines_from (c :: cur) s'
  end.

Definition splitlines (s : pystr) : list pystr := splitlines_from [] s.

(** [sep.join(parts)] *)
Fixpoint join (sep : pystr) (parts : list pystr) : pystr :=
  match parts with
  | [] => []
  | [p] => p
  | p :: ps => p ++ sep ++ join sep ps
  end.

(** [x <= y] on strings: lexicographic on code points. *)
Fixpoint pystr_leb (x y : pystr) : bool :=
  match x, y with
  | [], _ => true
  | _ :: _, [] => false
  | a :: x', b :: y' =>
      if (a <? b)%N then true
      else if (a =? b)%N then pystr_leb x' y' else false
  end.

Definition pystr_le (x y : pystr) : Prop := pystr_leb x y = true.

Definition pystr_lt (x y : pystr) : Prop := pystr_le x y /\ x <> y.

#[global] Instance pystr_le_dec : RelDecision pystr_le :=
  fun x y => decide (pystr_leb x y = true).

(** [sorted(xs)] for strings. *)
Definition sorted (xs : list pystr) : list pystr := merge_sort pystr_le xs.

(** [xs[i]] *)
Definition index {A : Type} (xs : list A) (i : nat) : result A :=
  match nth_error xs i with
  | Some x => Ok x
  | None => Raise IndexError
  end.

(** [a, b = xs] *)
Definition unpack2 {A : Type} (xs : list A) : result (A * A) :=
  match xs with
  | [a; b] => Ok (a, b)
  | _ => Raise ValueError
  end.

(** [sep] occurs in [s] as a contiguous run. *)
Definition occurs_in (sep s : pystr) : Prop :=
  exists l r, s = l ++ sep ++ r.

(** [s] ends with [p]. *)
Definition ends_with (p s : pystr) : Prop := exists l, s = l ++ p.

End PyStr.

Import PyStr.

(* ===================================================================== *)
(** * app/hosts_manager.py *)
(* ===================================================================== *)

Module Hosts.

Definition BLOCK_START : pystr := py "# AdultBlocker START".
Definition BLOCK_END : pystr := py "# AdultBlocker END".

Definition COMMENT_PURPOSE : pystr :=
  py "# The following entries were added by AdultBlocker to intentionally block domains.".
Definition COMMENT_REMOVAL : pystr :=
  py "# Remove this section to unblock (requires admin/root).".

Definition NL : pystr := [10%N].

(** The hosts file as the process sees it: its decoded text ([None] when
    the path does not exist) and whether the process may read and write
    it. *)
Record hosts_fs : Type := {
  hosts_text : option pystr;
  hosts_readable : bool;
  hosts_writable : bool;
}.

Definition _read_hosts (h : hosts_fs) : result pystr :=
  if hosts_readable h then
    match hosts_text h with
    | Some content => Ok content
    | None => Raise FileNotFoundError
    end
  else Raise PermissionError.

Definition _write_hosts (h : hosts_fs) (content : pystr) : result hosts_fs :=
  if hosts_writable h then
    Ok {| hosts_text := Some content;
          hosts_readable := hosts_readable h;
          hosts_writable := hosts_writable h |}
  else Raise PermissionError.

(** [flush_dns] runs resolver commands and swallows every error; the hosts
    file is not touched. *)
Definition flush_dns (h : hosts_fs) : hosts_fs := h.

(** One turn of the loop of [_expand_domains]. *)
Definition expand_step (expanded : gset pystr) (d : pystr) : gset pystr :=
  let d := strip d in
  match d with
  | [] => expanded
  | _ :: _ =>
      let expanded := {[ d ]} ∪ expanded in
      if negb (startswith (py "www.") d)
      then {[ py "www." ++ d ]} ∪ expanded
      else expanded
  end.

Definition _expand_domains (domains : list pystr) : list pystr :=
  sorted (elements (foldl expand_step ∅ domains)).

(** [any(line.strip().endswith(f" {d}") for line in lines)] *)
Definition has_entry (lines : list pystr) (d : pystr) : bool :=
  existsb (fun line => endswith (py " " ++ d) (strip line)) lines.

Definition is_block_active (h : hosts_fs) (domains : list pystr) : result bool :=
  content ← _read_hosts h;
  if negb (contains BLOCK_START content) || negb (contains BLOCK_END content)
  then Ok false
  else
    rest ← index (split1 BLOCK_START content) 1;
    block_section ← index (split1 BLOCK_END rest) 0;
    let expanded := _expand_domains domains in
    Ok (forallb (has_entry (splitlines block_section)) expanded).

(** The lines of a fresh block for the expanded domains. *)
Definition block_lines (expanded : list pystr) : list pystr :=
  [BLOCK_START; COMMENT_PURPOSE; COMMENT_REMOVAL]
  ++ flat_map (fun d => [py "127.0.0.1 " ++ d; py "::1 " ++ d]) expanded
  ++ [BLOCK_END].

Definition apply_block (h : hosts_fs) (domains : list pystr) : result hosts_fs :=
  let expanded := _expand_domains domains in
  content ← _read_hosts h;
  content ←
    (if contains BLOCK_START content && contains BLOCK_END content then
       '(before, rest) ← unpack2 (split1 BLOCK_START content);
       '(_, after) ← unpack2 (split1 BLOCK_END rest);
       Ok (before ++ after)
     else Ok content);
  let block := join NL (block_lines expanded) ++ NL in
  let content :=
    match content with
    | [] => content
    | _ :: _ => if negb (endswith NL content) then content ++ NL else content
    end in
  let new_content := content ++ block in
  h' ← _write_hosts h new_content;
  Ok (flush_dns h').

Definition remove_block (h : hosts_fs) : result hosts_fs :=
  content ← _read_hosts h;
  if contains BLOCK_START content && contains BLOCK_END content then
    '(before, rest) ← unpack2 (split1 BLOCK_START content);
    '(_, after) ← unpack2 (split1 BLOCK_END rest);
    h' ← _write_hosts h (before ++ after);
    Ok (flush_dns h')
  else Ok h.

(** A hosts file with text [content] that the process may read and write. *)
Definition hosts_file (content : pystr) : hosts_fs :=
  {| hosts_text := Some content; hosts_readable := true; hosts_writable := true |}.

End Hosts.

Import Hosts.

(* ===================================================================== *)
(** * app/state_store.py *)
(* ===================================================================== *)

Module Store.

(** What [json.loads] returns. A number is an exact rational, whether
    Python holds it as an [int] or as a [float]. *)
#[warnings="-register-all"]
Inductive json : Type :=
| JNull
| JBool (b : bool)
| JNum (q : Q)
| JStr (s : pystr)
| JList (l : list json)
| JDict (d : gmap pystr json).

Abbreviation dict := (gmap pystr json).

(** The text of a file of the data directory, by what [json.loads] makes
    of it: [Json v] is a text that parses to [v], as [json.dumps(v)] does;
    [Truncated v n] is the first [n] characters of [json.dumps(v)], cut
    before its end; [Garbage s] is any other text that does not parse. *)
Inductive file_text : Type :=
| Json (v : json)
| Truncated (v : json) (n : nat)
| Garbage (s : pystr).

(** The files the store touches: [state.json], [state.tmp] beside it, and
    the optional [presets/adult_domains.txt]; [None] is a missing file. *)
Record state_fs : Type := {
  state_json : option file_text;
  state_tmp : option file_text;
  preset_txt : option pystr;
}.

Definition DEFAULT_DOMAINS : list pystr :=
  [py "exampleadult.com"; py "www.exampleadult.com"].

Definition K_DOMAINS : pystr := py "blocked_domains".
Definition K_STARTED : pystr := py "pending_uninstall_started_at".
Definition K_ONBOARDED : pystr := py "onboarding_completed".

(** A Python list of strings as a JSON value. *)
Definition jstrs (l : list pystr) : json := JList (map JStr l).

Definition json_dumps (v : json) : file_text := Json v.

Definition json_loads (t : file_text) : result json :=
  match t with
  | Json v => Ok v
  | Truncated _ _ => Raise JSONDecodeError
  | Garbage _ => Raise JSONDecodeError
  end.

(** The two paths [_write_state] works on: [self.state_path] and
    [self.state_path.with_suffix(".tmp")]. *)
Inductive path : Type :=
| StatePath
| TmpPath.

Definition same_path (p p' : path) : bool :=
  match p, p' with
  | StatePath, StatePath | TmpPath, TmpPath => true
  | _, _ => false
  end.

Definition file_at (fs : state_fs) (p : path) : option file_text :=
  match p with
  | StatePath => state_json fs
  | TmpPath => state_tmp fs
  end.

Definition put_file (fs : state_fs) (p : path) (t : option file_text) : state_fs :=
  match p with
  | StatePath =>
      {| state_json := t; state_tmp := state_tmp fs; preset_txt := preset_txt fs |}
  | TmpPath =>
      {| state_json := state_json fs; state_tmp := t; preset_txt := preset_txt fs |}
  end.

(** A call that changes the data directory. *)
Inductive fs_call : Type :=
| WriteText (p : path) (v : json)  (* [p.write_text(json.dumps(v, indent=2))] *)
| Replace (src dst : path).        (* [src.replace(dst)] *)

(** The directory after a call that ran to its end. [replace] is one
    rename: the destination gets the source's text and the source is gone.
    It raises when the source is missing, and on a path renamed to itself
    it does nothing; the directory is then left as it is. *)
Definition exec (c : fs_call) (fs : state_fs) : state_fs :=
  match c with
  | WriteText p v => put_file fs p (Some (json_dumps v))
  | Replace src dst =>
      match file_at fs src with
      | Some t =>
          if same_path src dst then fs
          else put_file (put_file fs dst (Some t)) src None
      | None => fs
      end
  end.

Fixpoint run (calls : list fs_call) (fs : state_fs) : state_fs :=
  match calls with
  | [] => fs
  | c :: calls => run calls (exec c fs)
  end.

(** The directory a call can be cut short in, strictly between its start
    and its end. [write_text] opens the file, which empties or creates it,
    and then writes the text: the file holds a part of the text. A rename
    has no such state: the destination names the old file or the new one. *)
Inductive midway : fs_call -> state_fs -> state_fs -> Prop :=
| midway_write_text (p : path) (v : json) (n : nat) (fs : state_fs) :
    midway (WriteText p v) fs (put_file fs p (Some (Truncated v n))).

(** [cut calls fs fs']: a process that runs [calls] from [fs] and is killed
    at any moment (before a call, within a call, or after the last one)
    leaves [fs']. *)
Inductive cut : list fs_call -> state_fs -> state_fs -> Prop :=
| cut_between (calls : list fs_call) (fs : state_fs) : cut calls fs fs
| cut_within (c : fs_call) (calls : list fs_call) (fs fs' : state_fs) :
    midway c fs fs' -> cut (c :: calls) fs fs'
| cut_after (c : fs_call) (calls : list fs_call) (fs fs' : state_fs) :
    cut calls (exec c fs) fs' -> cut (c :: calls) fs fs'.

(** The calls [_write_state] makes on the directory, in order. *)
Definition _write_state_calls (data : dict) : list fs_call :=
  [WriteText TmpPath (JDict data); Replace TmpPath StatePath].

(** Both calls are taken to succeed here; [Checked] below has them in a
    directory that may refuse them. *)
Definition _write_state (fs : state_fs) (data : dict) : state_fs :=
  run (_write_state_calls data) fs.

(** The directory seen by a process that starts after [_write_state] was
    cut short. *)
Definition interrupted (fs : state_fs) (data : dict) (fs' : state_fs) : Prop :=
  cut (_write_state_calls data) fs fs'.

(** Writing the state file in place, which [_write_state] does not do. *)
Definition write_in_place_calls (data : dict) : list fs_call :=
  [WriteText StatePath (JDict data)].

Definition _load_preset_domains_if_available (fs : state_fs) : option (list pystr) :=
  match preset_txt fs with
  | None => None
  | Some raw =>
      let domains :=
        filter (fun ln => ln <> [] /\ startswith (py "#") ln = false)
               (map strip (splitlines raw)) in
      match domains with
      | [] => None
      | _ :: _ => Some domains
      end
  end.

Definition DEFAULT_STATE : dict :=
  <[K_ONBOARDED := JBool false]>
    (<[K_STARTED := JNull]> (<[K_DOMAINS := jstrs DEFAULT_DOMAINS]> ∅)).

Definition __init__ (fs : state_fs) : state_fs :=
  match state_json fs with
  | Some _ => fs
  | None =>
      let starter := _load_preset_domains_if_available fs in
      _write_state fs
        (<[K_ONBOARDED := JBool false]>
           (<[K_STARTED := JNull]>
              (<[K_DOMAINS := jstrs (match starter with
                                     | Some l => l
                                     | None => DEFAULT_DOMAINS
                                     end)]> ∅)))
  end.

(** [self.state_path.read_text()] *)
Definition read_state (fs : state_fs) : result file_text :=
  match state_json fs with
  | Some t => Ok t
  | None => Raise FileNotFoundError
  end.

(** Looking up the method [setdefault] on a parsed value: only an object
    has it. *)
Definition as_dict (v : json) : result dict :=
  match v with
  | JDict d => Ok d
  | _ => Raise AttributeError
  end.

(** [data.setdefault(k, v)] *)
Definition setdefault (data : dict) (k : pystr) (v : json) : dict :=
  match data !! k with
  | Some _ => data
  | None => <[k := v]> data
  end.

(** The body of the [try] of [load]. *)
Definition load_body (fs : state_fs) : result (dict * state_fs) :=
  raw ← read_state fs;
  v ← json_loads raw;
  data ← as_dict v;
  let data := setdefault data K_DOMAINS (jstrs DEFAULT_DOMAINS) in
  let data := setdefault data K_STARTED JNull in
  let data := setdefault data K_ONBOARDED (JBool false) in
  Ok (data, fs).

Definition load (fs : state_fs) : dict * state_fs :=
  try_except
    (load_body fs)
    (let reset := DEFAULT_STATE in
     (reset, _write_state fs reset)).

Definition save (fs : state_fs) (data : dict) : state_fs :=
  _write_state fs data.

(** [list(v)] *)
Definition py_list (v : json) : result (list json) :=
  match v with
  | JList l => Ok l
  | JStr s => Ok (map (fun c => JStr [c]) s)
  | JDict d => Ok (map (fun kv => JStr kv.1) (map_to_list d))
  | _ => Raise TypeError
  end.

Definition get_domains (fs : state_fs) : result (list json) * state_fs :=
  let '(state, fs) := load fs in
  (py_list (default (jstrs DEFAULT_DOMAINS) (state !! K_DOMAINS)), fs).

(** [[d.strip() for d in domains if d.strip()]] *)
Definition strip_nonblank (domains : list pystr) : list pystr :=
  filter (fun d => d <> []) (map strip domains).

Definition set_domains (fs : state_fs) (domains : list pystr) : state_fs :=
  let '(state, fs) := load fs in
  let state := <[K_DOMAINS := jstrs (strip_nonblank domains)]> state in
  save fs state.

Definition start_uninstall_timer (fs : state_fs) (now : Q) : state_fs :=
  let '(state, fs) := load fs in
  let state := <[K_STARTED := JNum now]> state in
  save fs state.

Definition cancel_uninstall_timer (fs : state_fs) : state_fs :=
  let '(state, fs) := load fs in
  let state := <[K_STARTED := JNull]> state in
  save fs state.

(** [isinstance(val, (int, float))] holds of a number and of a [bool],
    which is an [int]. [float(val)] is taken to be exact here, and so is
    the subtraction of [uninstall_ready]; [Binary64] below has both as
    Python computes them. *)
Definition get_uninstall_started_at (fs : state_fs) : option Q * state_fs :=
  let '(state, fs) := load fs in
  (match state !! K_STARTED with
   | Some (JNum q) => Some q
   | Some (JBool b) => Some (if b then 1%Q else 0%Q)
   | _ => None
   end, fs).

Definition uninstall_ready (fs : state_fs) (now : Q) (delay_seconds : Z)
  : bool * state_fs :=
  let '(started, fs) := get_uninstall_started_at fs in
  match started with
  | None => (false, fs)
  | Some started => (Qle_bool (inject_Z delay_seconds) (now - started), fs)
  end.

(** [bool(v)] *)
Definition truthy (v : json) : bool :=
  match v with
  | JNull => false
  | JBool b => b
  | JNum q => negb (Qeq_bool q 0)
  | JStr s => negb (bool_decide (s = []))
  | JList l => negb (bool_decide (length l = 0%nat))
  | JDict d => negb (bool_decide (size d = 0%nat))
  end.

Definition is_onboarding_completed (fs : state_fs) : bool * state_fs :=
  let '(state, fs) := load fs in
  (truthy (default (JBool false) (state !! K_ONBOARDED)), fs).

Definition set_onboarding_completed (fs : state_fs) (completed : bool) : state_fs :=
  let '(state, fs) := load fs in
  let state := <[K_ONBOARDED := JBool completed]> state in
  save fs state.

End Store.

Import Store.

(* ===================================================================== *)
(** * app/state_store.py in a directory that may refuse a write *)
(* ===================================================================== *)

(** [Store] takes every write to the data directory to succeed. Here the
    same calls are made in a directory the process may or may not write:
    [write_text] and [replace] raise [PermissionError] when it may not, and
    [replace] raises [FileNotFoundError] when its source is missing. *)
Module Checked.

Definition exec (writable : bool) (c : fs_call) (fs : state_fs) : result state_fs :=
  if negb writable then Raise PermissionError
  else
    match c with
    | WriteText _ _ => Ok (Store.exec c fs)
    | Replace src _ =>
        match file_at fs src with
        | Some _ => Ok (Store.exec c fs)
        | None => Raise FileNotFoundError
        end
    end.

Fixpoint run (writable : bool) (calls : list fs_call) (fs : state_fs)
  : result state_fs :=
  match calls with
  | [] => Ok fs
  | c :: calls => fs ← exec writable c fs; run writable calls fs
  end.

Definition _write_state (writable : bool) (fs : state_fs) (data : dict)
  : result state_fs :=
  run writable (_write_state_calls data) fs.

(** [load]: the handler of its [try] calls [_write_state] outside any
    [try], so what that call raises reaches the caller. *)
Definition load (writable : bool) (fs : state_fs) : result (dict * state_fs) :=
  match load_body fs with
  | Ok loaded => Ok loaded
  | Raise _ =>
      let reset := DEFAULT_STATE in
      fs ← _write_state writable fs reset;
      Ok (reset, fs)
  end.

End Checked.

(* ===================================================================== *)
(** * app/state_store.py: the timer's arithmetic on binary64 floats *)
(* ===================================================================== *)

(** [Store] reads the start timestamp and the clock as exact rationals.
    Python holds both as binary64 floats: [float(val)] rounds or overflows,
    and [time.time() - started] is rounded to the nearest float. Here the
    two timer functions are written on the value the loaded state holds,
    with the arithmetic of the Standard Library's [SpecFloat]. *)
Module Binary64.

(** A Python [float]. *)
Definition float : Type := spec_float.

Definition prec : Z := 53.
Definition emax : Z := 1024.

(** The float nearest to [m * 2^e], ties to even; an infinity when that
    is out of range. *)
Definition nearest (m e : Z) : float := binary_normalize prec emax m e false.

(** [x - y] *)
Definition fsub (x y : float) : float := SFsub prec emax x y.

(** The number a float is, when it is finite. *)
Definition float_value (x : float) : option Q :=
  match x with
  | S754_zero _ => Some 0%Q
  | S754_finite s m e =>
      let z := if s then Z.neg m else Z.pos m in
      Some (if (0 <=? e)%Z then inject_Z (z * 2 ^ e)
            else Qmake z (2 ^ Z.to_pos (- e)))
  | S754_infinity _ | S754_nan => None
  end.

(** [x >= n] for a float and an [int]: Python compares the two numbers
    exactly; plus infinity is above every [int], and a NaN or minus
    infinity is not. *)
Definition ge_int (x : float) (n : Z) : bool :=
  match float_value x with
  | Some q => Qle_bool (inject_Z n) q
  | None => match x with S754_infinity false => true | _ => false end
  end.

(** [x > n] for a float and an [int], compared exactly. *)
Definition gt_int (x : float) (n : Z) : bool :=
  match float_value x with
  | Some q => negb (Qle_bool q (inject_Z n))
  | None => match x with S754_infinity false => true | _ => false end
  end.

(** [int(x)] for a float: the number, truncated toward zero. *)
Definition int_of_float (x : float) : result Z :=
  match float_value x with
  | Some q => Ok (Z.quot (Qnum q) (Z.pos (Qden q)))
  | None =>
      match x with
      | S754_nan => Raise ValueError
      | _ => Raise OverflowError
      end
  end.

(** [float(n)] for an [int]. *)
Definition float_of_int (n : Z) : result float :=
  match nearest n 0 with
  | S754_infinity _ => Raise OverflowError
  | x => Ok x
  end.

(** What [self.load().get("pending_uninstall_started_at")] can be. *)
Inductive held : Type :=
| HNone
| HBool (b : bool)
| HInt (n : Z)
| HFloat (x : float)
| HOther.  (* a [str], a [list] or a [dict] *)

(** [isinstance(val, (int, float))] holds of an [int], of a [bool], which
    is an [int], and of a [float]. *)
Definition get_uninstall_started_at (val : held) : result (option float) :=
  match val with
  | HInt n => x ← float_of_int n; Ok (Some x)
  | HBool b => x ← float_of_int (if b then 1 else 0); Ok (Some x)
  | HFloat x => Ok (Some x)
  | HNone | HOther => Ok None
  end.

(** [now] is what [time.time()] returns. *)
Definition uninstall_ready (val : held) (now : float) (delay_seconds : Z)
  : result bool :=
  started ← get_uninstall_started_at val;
  match started with
  | None => Ok false
  | Some started => Ok (ge_int (fsub now started) delay_seconds)
  end.

(** [val] is a Python object that a value of the store's [json] stands
    for: a [JNum] stands for the [int] and for the finite floats equal to
    it. *)
Inductive stands_for : json -> held -> Prop :=
| stands_for_null : stands_for JNull HNone
| stands_for_bool (b : bool) : stands_for (JBool b) (HBool b)
| stands_for_int (q : Q) (n : Z) :
    (q == inject_Z n)%Q -> stands_for (JNum q) (HInt n)
| stands_for_float (q q' : Q) (x : float) :
    float_value x = Some q' -> (q == q')%Q -> stands_for (JNum q) (HFloat x)
| stands_for_str (s : pystr) : stands_for (JStr s) HOther
| stands_for_list (l : list json) : stands_for (JList l) HOther
| stands_for_dict (d : dict) : stands_for (JDict d) HOther.

End Binary64.

(* ===================================================================== *)
(** * app/ui.py: the gated handlers *)
(* ===================================================================== *)

Module UI.

Definition UNINSTALL_DELAY_SECONDS : Z := 15 * 60.

(** The two objects a window holds. *)
Record world : Type := {
  store : state_fs;
  hosts : hosts_fs;
}.

(** The button a question box is closed with. *)
Inductive answer : Type := Yes | No.

Definition with_store (w : world) (s : state_fs) : world :=
  {| store := s; hosts := hosts w |}.

(** [_update_status] reads the timer and enables or disables buttons. *)
Definition _update_status (w : world) : world :=
  with_store w (get_uninstall_started_at (store w)).2.

(** [EditDomainsDialog.get_domains] on the editor's text. *)
Definition dialog_get_domains (text : pystr) : list pystr :=
  filter (fun ln => ln <> []) (map strip (splitlines text)).

(** [resp] is the answer to "Start now?", asked when no timer runs. *)
Definition _require_timer_ready (w : world) (now : Q) (resp : answer)
  : bool * world :=
  let '(ready, s) := uninstall_ready (store w) now UNINSTALL_DELAY_SECONDS in
  if ready then (true, with_store w s)
  else
    let '(started, s) := get_uninstall_started_at s in
    match started with
    | None =>
        match resp with
        | Yes => (false, _update_status (with_store w (start_uninstall_timer s now)))
        | No => (false, with_store w s)
        end
    | Some _ => (false, with_store w s)
    end.

Definition _proceed_uninstall (w : world) (now : Q) : world :=
  let '(ready, s) := uninstall_ready (store w) now UNINSTALL_DELAY_SECONDS in
  if negb ready then with_store w s
  else
    _update_status
      match remove_block (hosts w) with
      | Ok h => {| store := cancel_uninstall_timer s; hosts := h |}
      | Raise _ => with_store w s
      end.

(** [reply] is the answer to "Continue?". *)
Definition _uninstall_app (w : world) (now : Q) (resp reply : answer) : world :=
  let '(ok, w) := _require_timer_ready w now resp in
  if negb ok then w
  else
    match reply with
    | No => w
    | Yes =>
        match remove_block (hosts w) with
        | Ok h => {| store := cancel_uninstall_timer (store w); hosts := h |}
        | Raise _ => w
        end
    end.

(** [sep.join(items)] on a list read back from the state file: an item
    that is not a string raises [TypeError]. *)
Fixpoint joined_items (items : list json) : result (list pystr) :=
  match items with
  | [] => Ok []
  | JStr s :: items => parts ← joined_items items; Ok (s :: parts)
  | _ :: _ => Raise TypeError
  end.

Definition join_items (sep : pystr) (items : list json) : result pystr :=
  parts ← joined_items items;
  Ok (join sep parts).

(** [EditDomainsDialog.__init__]: the text the editor opens with. *)
Definition dialog_init (domains : list json) : result pystr :=
  join_items NL domains.

(** [edited] is the editor's text when the dialog is accepted, [None]
    when it is dismissed. The handler catches nothing: an exception of
    [get_domains] or of the dialog's constructor ends it, after whatever
    the calls before have written. *)
Definition _edit_domains (w : world) (now : Q) (resp : answer)
    (edited : option pystr) : world :=
  let '(ok, w) := _require_timer_ready w now resp in
  if negb ok then w
  else
    let '(domains, s) := get_domains (store w) in
    match domains ≫= dialog_init with
    | Raise _ => with_store w s
    | Ok _ =>
        match edited with
        | Some text =>
            _update_status (with_store w (set_domains s (dialog_get_domains text)))
        | None => with_store w s
        end
    end.

Definition _start_uninstall (w : world) (now : Q) : world :=
  _update_status (with_store w (start_uninstall_timer (store w) now)).

Definition _cancel_uninstall (w : world) : world :=
  _update_status (with_store w (cancel_uninstall_timer (store w))).





(** What [_update_status] shows. *)
Inductive status : Type :=
| BlockingOn
| TimerRunning (mins secs : Z)
| TimerDone.

(** [int(max(0, x))] for a float [x]: [max] returns [x] when [x > 0], and
    the [int] 0 otherwise. *)
Definition remaining_seconds (x : Binary64.float) : result Z :=
  if Binary64.gt_int x 0 then Binary64.int_of_float x else Ok 0%Z.

(** The branch [_update_status] takes, on the value the loaded state holds
    and with binary64 arithmetic; in the third one the buttons for turning
    blocking off, editing and uninstalling are enabled. The [int]
    [UNINSTALL_DELAY_SECONDS] is converted to a float for the
    subtraction. *)
Definition status_shown (val : Binary64.held) (now : Binary64.float)
  : result status :=
  started ← Binary64.get_uninstall_started_at val;
  match started with
  | None => Ok BlockingOn
  | Some started =>
      remaining ← remaining_seconds
                    (Binary64.fsub (Binary64.nearest UNINSTALL_DELAY_SECONDS 0)
                                   (Binary64.fsub now started));
      if (0 <? remaining)%Z
      then Ok (TimerRunning (remaining / 60) (remaining mod 60))
      else Ok TimerDone
  end.

End UI.

Import UI.

(* ===================================================================== *)
(** * app/presets.py *)
(* ===================================================================== *)

Module Presets.

Definition load_local_preset (fs : state_fs) : list pystr :=
  match preset_txt fs with
  | None => []
  | Some raw =>
      filter (fun ln => ln <> [] /\ startswith (py "#") ln = false)
             (map strip (splitlines raw))
  end.

End Presets.

Import Presets.

(* ===================================================================== *)
(** * app/startup.py *)
(* ===================================================================== *)

Module Startup.


End Startup.

Import Startup.

(* ===================================================================== *)
(** * app/onboarding.py *)
(* ===================================================================== *)

Module Onboarding.

(** An entry of the list widget. *)
Record item : Type := {
  item_text : pystr;
  item_checkable : bool;
  item_checked : bool;
}.

Definition NO_STARTER : pystr :=
  py "No starter list found. Import your list to begin.".

Definition _populate (domains : list pystr) : list item :=
  match domains with
  | [] => [{| item_text := NO_STARTER; item_checkable := false; item_checked := false |}]
  | _ :: _ =>
      map (fun d => {| item_text := d; item_checkable := true; item_checked := true |})
          domains
  end.

Definition _load_preset (fs : state_fs) : list item :=
  match preset_txt fs with
  | Some raw =>
      _populate
        (map strip
           (filter (fun ln => strip ln <> [] /\ startswith (py "#") (strip ln) = false)
                   (splitlines raw)))
  | None => _populate []
  end.

Definition _selected_domains (items : list item) : list pystr :=
  map (fun it => strip (item_text it))
      (filter (fun it => item_checkable it = true /\ item_checked it = true) items).

Definition _install (w : world) (items : list item) : world :=
  let domains := _selected_domains items in
  match domains with
  | [] => w
  | _ :: _ =>
      let s := set_domains (store w) domains in
      match apply_block (hosts w) domains with
      | Ok h => {| store := set_onboarding_completed s true; hosts := h |}
      | Raise PermissionError =>
          {| store := set_onboarding_completed s true; hosts := hosts w |}
      | Raise _ => {| store := s; hosts := hosts w |}
      end
  end.

End Onboarding.

Import Onboarding.

(* ===================================================================== *)
(** * Vocabulary of the statements, and the files of the examples *)
(* ===================================================================== *)

(** [x] is what the loop of [_expand_domains] adds for the raw entry [d]. *)
Definition expands_to (d x : pystr) : Prop :=
  strip d <> []
  /\ (x = strip d
      \/ (startswith (py "www.") (strip d) = false /\ x = py "www." ++ strip d)).

(** [sec] is the text that follows the first start marker of [content], up
    to the first end marker after it, or up to the end of [content] when no
    end marker follows. *)
Definition block_section_of (content sec : pystr) : Prop :=
  exists pre rest,
    content = pre ++ BLOCK_START ++ rest
    /\ ~ occurs_in BLOCK_START (pre ++ removelast BLOCK_START)
    /\ ((exists post, rest = sec ++ BLOCK_END ++ post
                      /\ ~ occurs_in BLOCK_END (sec ++ removelast BLOCK_END))
        \/ (rest = sec /\ ~ occurs_in BLOCK_END rest)).

(** Every expanded domain has an entry among the lines of [sec]: a line
    that, stripped, ends with a space and the domain. *)
Definition covers (sec : pystr) (expanded : list pystr) : Prop :=
  forall d, d ∈ expanded ->
    exists line, line ∈ splitlines sec /\ ends_with (py " " ++ d) (strip line).

(** What the two [split] calls of [is_block_active] select. *)
Definition selected_section (content : pystr) : result pystr :=
  rest ← index (split1 BLOCK_START content) 1;
  index (split1 BLOCK_END rest) 0.

(** The text to which [apply_block] appends the block: the file's text,
    ended by a line feed unless it is empty. *)
Definition newline_terminated (content : pystr) : pystr :=
  match content with
  | [] => content
  | _ :: _ => if negb (endswith NL content) then content ++ NL else content
  end.

(** A block whose only entry carries a trailing blank. *)
Definition padded_section : pystr := NL ++ py "127.0.0.1 www.a " ++ NL.

Definition padded_file : pystr := BLOCK_START ++ padded_section ++ BLOCK_END.

(** The block written for [example.com]. *)
Definition example_block : pystr :=
  join NL (block_lines [py "example.com"; py "www.example.com"]) ++ NL.

(** The three [setdefault] calls of [load]. *)
Definition with_defaults (d : dict) : dict :=
  setdefault
    (setdefault (setdefault d K_DOMAINS (jstrs DEFAULT_DOMAINS)) K_STARTED JNull)
    K_ONBOARDED (JBool false).

(** The object [state.json] parses to, if it exists and parses to one. *)
Definition parsed_state (fs : state_fs) : option dict :=
  match state_json fs with
  | Some (Json (JDict d)) => Some d
  | _ => None
  end.

(** A state that has the three fields. *)
Definition full (d : dict) : Prop :=
  is_Some (d !! K_DOMAINS) /\ is_Some (d !! K_STARTED) /\ is_Some (d !! K_ONBOARDED).

(** The timestamp held in a loaded state. *)
Definition started_of (state : dict) : option Q :=
  match state !! K_STARTED with
  | Some (JNum q) => Some q
  | Some (JBool b) => Some (if b then 1%Q else 0%Q)
  | _ => None
  end.

(** A store whose [state.json] holds text that is not JSON. *)
Definition corrupt_store : state_fs :=
  {| state_json := Some (Garbage (py "{not json"));
     state_tmp := None;
     preset_txt := None |}.

(** A store holding the default state, about to be overwritten. *)
Definition default_store : state_fs :=
  {| state_json := Some (json_dumps (JDict DEFAULT_STATE));
     state_tmp := None;
     preset_txt := None |}.

(** A data directory on first run: no state file, no preset file. *)
Definition fresh_store : state_fs :=
  {| state_json := None; state_tmp := None; preset_txt := None |}.

(** A store whose timer was started at time 0. *)
Definition ready_store : state_fs :=
  {| state_json := Some (json_dumps (JDict (<[K_STARTED := JNum 0]> DEFAULT_STATE)));
     state_tmp := None;
     preset_txt := None |}.

(** A hosts file that holds a block and that the process may not write. *)
Definition locked_hosts : hosts_fs :=
  {| hosts_text := Some example_block; hosts_readable := true; hosts_writable := false |}.

Definition ready_world : world := {| store := ready_store; hosts := locked_hosts |}.

(** A domain that can stand on a line of the block: it holds no line
    boundary and the end marker does not occur in it. *)
Definition plain (d : pystr) : Prop :=
  forallb (fun c => negb (is_linebreak c)) d = true /\ ~ occurs_in BLOCK_END d.

(** The block [apply_block] writes for a raw domain list. *)
Definition block_for (domains : list pystr) : pystr :=
  join NL (block_lines (_expand_domains domains)) ++ NL.

(** The address lines of a block. *)
Definition entry_lines (expanded : list pystr) : list pystr :=
  flat_map (fun d => [py "127.0.0.1 " ++ d; py "::1 " ++ d]) expanded.

(** Lines, each ended by a line feed. *)
Definition lines_text (lines : list pystr) : pystr :=
  concat (map (fun l => l ++ NL) lines).

(** The text of a block between its two markers. *)
Definition block_body (expanded : list pystr) : pystr :=
  lines_text ([] :: COMMENT_PURPOSE :: COMMENT_REMOVAL :: entry_lines expanded).

(** The application on first launch: a fresh data directory, and a hosts
    file that holds one line and may be written. *)
Definition first_run_world : world :=
  {| store := __init__ fresh_store; hosts := hosts_file (py "::1 localhost") |}.

(** The value of one field of the state [load] returns. *)
Definition field (fs : state_fs) (k : pystr) : option json := (load fs).1 !! k.

(** The floats 900.0 and 2.0 ** -60. *)
Definition clock_900 : Binary64.float := Binary64.nearest 900 0.

Definition started_tiny : Binary64.float := Binary64.nearest 1 (-60).

(** The float 899.5. *)
Definition clock_899_5 : Binary64.float := Binary64.nearest 1799 (-1).

(** Two readings of the clock, 900 seconds apart: 1700000000.5 and
    1700000900.5. *)
Definition clock_start : Binary64.float := Binary64.nearest 3400000001 (-1).

Definition clock_end : Binary64.float := Binary64.nearest 3400001801 (-1).

(** A state whose timer was started at time 5. *)
Definition started_at_5 : dict := <[K_STARTED := JNum 5]> DEFAULT_STATE.

(* ===================================================================== *)
(** * Strings: prefixes, suffixes, occurrences *)
(* ===================================================================== *)

Section StringFacts.

Implicit Types (p s sep l r : pystr).

Lemma startswith_app p r : startswith p (p ++ r) = true.
Proof.
  induction p as [|a p IH]; simpl; [done|].
  by rewrite N.eqb_refl, IH.
Qed.

Lemma startswith_true p s : startswith p s = true -> exists r, s = p ++ r.
Proof.
  revert s; induction p as [|a p IH]; intros s H; simpl in *.
  - by exists s.
  - destruct s as [|b s]; [done|].
    apply andb_true_iff in H as [Hab Hps].
    apply N.eqb_eq in Hab as ->.
    destruct (IH _ Hps) as [r ->]. by exists r.
Qed.

Lemma startswith_spec p s : startswith p s = true <-> exists r, s = p ++ r.
Proof.
  split; [apply startswith_true|].
  intros [r ->]. apply startswith_app.
Qed.

Lemma endswith_spec p s : endswith p s = true <-> ends_with p s.
Proof.
  unfold endswith, ends_with. rewrite startswith_spec. split.
  - intros [r Hr]. exists (rev r).
    apply (f_equal (@rev N)) in Hr.
    by rewrite rev_involutive, rev_app_distr, rev_involutive in Hr.
  - intros [l ->]. exists (rev l). by rewrite rev_app_distr.
Qed.

Lemma contains_spec sep s : contains sep s = true <-> occurs_in sep s.
Proof.
  unfold occurs_in. induction s as [|c s IH]; simpl.
  - rewrite orb_false_r, startswith_spec. split.
    + intros [r Hr]. by exists [], r.
    + intros (l & r & Hs). symmetry in Hs.
      apply app_eq_nil in Hs as [-> Hs]. by exists r.
  - rewrite orb_true_iff, IH, startswith_spec. split.
    + intros [[r Hr]|(l & r & Hs)].
      * by exists [], r.
      * exists (c :: l), r. by rewrite Hs.
    + intros (l & r & Hs). destruct l as [|c' l].
      * left. by exists r.
      * right. exists l, r. simpl in Hs. congruence.
Qed.

Lemma contains_false_not_occurs sep s : contains sep s = false <-> ~ occurs_in sep s.
Proof. rewrite <- contains_spec. by destruct (contains sep s). Qed.

Lemma find_contains sep s : contains sep s = bool_decide (find sep s <> None).
Proof.
  induction s as [|c s IH]; simpl.
  - by destruct (startswith sep []).
  - destruct (startswith sep (c :: s)); [done|]. simpl.
    rewrite IH. by destruct (find sep s).
Qed.

Lemma find_unfold sep s :
  find sep s =
  if startswith sep s then Some 0
  else match s with
       | [] => None
       | _ :: s' => option_map S (find sep s')
       end.
Proof. by destruct s. Qed.

Lemma find_Some_lt sep s i : find sep s = Some i -> i <= length s.
Proof.
  revert i; induction s as [|c s IH]; intros i; simpl.
  - destruct (startswith sep []); [|done]. intros [= <-]. lia.
  - destruct (startswith sep (c :: s)).
    + intros [= <-]. lia.
    + destruct (find sep s) as [j|]; [|done].
      intros [= <-]. specialize (IH j eq_refl). lia.
Qed.

(** The text before the occurrence found, the separator, and the text
    after it make up the string. *)
Lemma find_Some_split sep s i :
  find sep s = Some i -> s = firstn i s ++ sep ++ skipn (i + length sep) s.
Proof.
  revert i; induction s as [|c s IH]; intros i; simpl.
  - destruct (startswith sep []) eqn:E; [|done]. intros [= <-].
    apply startswith_true in E as [r Hr]. symmetry in Hr.
    apply app_eq_nil in Hr as [-> ->]. done.
  - destruct (startswith sep (c :: s)) eqn:E.
    + intros [= <-]. apply startswith_true in E as [r Hr].
      rewrite Hr at 1. simpl. f_equal.
      rewrite Hr, skipn_app, skipn_all, Nat.sub_diag. done.
    + destruct (find sep s) as [j|] eqn:Ej; [|done].
      intros [= <-]. simpl. f_equal. by apply IH.
Qed.

Lemma startswith_shorter p a b :
  startswith p (a ++ b) = true -> length p <= length a -> startswith p a = true.
Proof.
  revert a; induction p as [|x p IH]; intros a H Hlen; simpl in *; [done|].
  destruct a as [|y a]; simpl in *; [lia|].
  apply andb_true_iff in H as [-> H]. simpl. apply IH; [done|lia].
Qed.

(** The leftmost occurrence: when [sep] does not occur in [pre] followed by
    all of [sep] but its last character, the occurrence after [pre] is the
    one [find] returns. *)
Lemma find_leftmost sep pre rest :
  sep <> [] ->
  contains sep (pre ++ removelast sep) = false ->
  find sep (pre ++ sep ++ rest) = Some (length pre).
Proof.
  intros Hne. destruct (exists_last Hne) as (init & x & ->).
  rewrite removelast_last.
  induction pre as [|c pre IH]; intros Hno.
  - rewrite find_unfold. simpl. by rewrite startswith_app.
  - simpl in Hno. apply orb_false_iff in Hno as [Hhd Htl].
    rewrite find_unfold. cbn [app length].
    destruct (startswith (init ++ [x]) (c :: pre ++ (init ++ [x]) ++ rest)) eqn:E.
    + exfalso.
      replace (c :: pre ++ (init ++ [x]) ++ rest)
        with ((c :: pre ++ init) ++ [x] ++ rest) in E
        by (simpl; by rewrite <- !app_assoc).
      apply startswith_shorter in E; [congruence|].
      simpl. rewrite !length_app. simpl. lia.
    + by rewrite (IH Htl).
Qed.

Lemma split1_leftmost sep pre rest :
  sep <> [] ->
  contains sep (pre ++ removelast sep) = false ->
  split1 sep (pre ++ sep ++ rest) = [pre; rest].
Proof.
  intros Hne Hno. unfold split1. rewrite find_leftmost by done.
  rewrite firstn_app, firstn_all, Nat.sub_diag. simpl. rewrite app_nil_r.
  rewrite skipn_app, skipn_all2 by lia. simpl.
  replace (length pre + length sep - length pre) with (length sep) by lia.
  rewrite skipn_app, skipn_all, Nat.sub_diag. done.
Qed.

Lemma split1_contains sep s :
  contains sep s = true ->
  exists before after, split1 sep s = [before; after] /\ s = before ++ sep ++ after.
Proof.
  rewrite find_contains. unfold split1. intros H.
  destruct (find sep s) as [i|] eqn:E; [|done].
  eexists _, _. split; [done|]. by apply find_Some_split.
Qed.

Lemma split1_not_contains sep s : contains sep s = false -> split1 sep s = [s].
Proof.
  rewrite find_contains. unfold split1. intros H.
  destruct (find sep s); [done|done].
Qed.

Lemma lstrip_decompose s :
  exists l, s = l ++ lstrip s /\ forallb isspace l = true.
Proof.
  induction s as [|c s (l & Hs & Hl)]; simpl.
  - by exists [].
  - destruct (isspace c) eqn:E.
    + exists (c :: l). simpl. rewrite E, Hl. split; [congruence|done].
    + by exists [].
Qed.

Lemma lstrip_head s c s' : lstrip s = c :: s' -> isspace c = false.
Proof.
  induction s as [|x s IH]; simpl; [done|].
  destruct (isspace x) eqn:E; [done|]. by intros [= <- _].
Qed.

Lemma lstrip_nil_forall s : lstrip s = [] <-> forallb isspace s = true.
Proof.
  induction s as [|c s IH]; simpl; [done|].
  destruct (isspace c); simpl; [done|]. split; done.
Qed.

Lemma forallb_rev {A} (f : A -> bool) (l : list A) : forallb f (rev l) = forallb f l.
Proof.
  induction l as [|x l IH]; simpl; [done|].
  rewrite forallb_app, IH. simpl. rewrite andb_true_r. apply andb_comm.
Qed.

(** [strip] removes a run of white space at each end and nothing else. *)
Lemma strip_decompose s :
  exists l r, s = l ++ strip s ++ r
              /\ forallb isspace l = true /\ forallb isspace r = true.
Proof.
  destruct (lstrip_decompose s) as (l & Hs & Hl).
  destruct (lstrip_decompose (rev (lstrip s))) as (r & Hr & Hr').
  exists l, (rev r). unfold strip, rstrip. split; [|split; [done|]].
  - rewrite Hs at 1. f_equal.
    apply (f_equal (@rev N)) in Hr.
    by rewrite rev_involutive, rev_app_distr in Hr.
  - by rewrite forallb_rev.
Qed.

(** A stripped string neither begins nor ends with white space. *)
Lemma strip_ends s :
  (forall c s', strip s = c :: s' -> isspace c = false)
  /\ (forall c s', strip s = s' ++ [c] -> isspace c = false).
Proof.
  unfold strip, rstrip. split.
  - intros c s' H.
    destruct (lstrip_decompose (rev (lstrip s))) as (r & Hr & Hr').
    apply (f_equal (@rev N)) in Hr.
    rewrite rev_involutive, rev_app_distr, H in Hr.
    destruct (lstrip s) as [|x t] eqn:E; [done|].
    simpl in Hr. injection Hr as <- _. by apply (lstrip_head s x t).
  - intros c s' H. apply (f_equal (@rev N)) in H.
    rewrite rev_involutive, rev_app_distr in H. simpl in H.
    by apply lstrip_head in H.
Qed.

Lemma strip_nil_iff s : strip s = [] <-> forallb isspace s = true.
Proof.
  unfold strip, rstrip. split.
  - intros H. apply (f_equal (@rev N)) in H. rewrite rev_involutive in H.
    simpl in H. apply lstrip_nil_forall in H. rewrite forallb_rev in H.
    destruct (lstrip_decompose s) as (l & Hs & Hl).
    rewrite Hs, forallb_app, Hl. done.
  - intros H. assert (lstrip s = []) as -> by by apply lstrip_nil_forall.
    done.
Qed.

End StringFacts.

(* ===================================================================== *)
(** * The order on strings and [sorted] *)
(* ===================================================================== *)

(** Decide the code-point comparisons met when [pystr_leb] is unfolded. *)
Ltac cmp_chars a b :=
  destruct (N.ltb_spec a b); destruct (N.eqb_spec a b);
  try lia; try done.

#[global] Instance pystr_le_refl : Reflexive pystr_le.
Proof.
  intros x. unfold pystr_le. induction x as [|a x IH]; simpl; [done|].
  by rewrite N.ltb_irrefl, N.eqb_refl.
Qed.

#[global] Instance pystr_le_total : Total pystr_le.
Proof.
  intros x. unfold pystr_le.
  induction x as [|a x IH]; intros [|b y]; simpl; auto.
  destruct (IH y); cmp_chars a b; cmp_chars b a; auto.
Qed.

#[global] Instance pystr_le_trans : Transitive pystr_le.
Proof.
  intros x. unfold pystr_le.
  induction x as [|a x IH]; intros [|b y] [|c z]; simpl; try done.
  intros Hxy Hyz. specialize (IH y z).
  cmp_chars a b; cmp_chars b c; cmp_chars a c; auto.
Qed.

#[global] Instance pystr_le_antisymm : AntiSymm (=) pystr_le.
Proof.
  intros x. unfold pystr_le.
  induction x as [|a x IH]; intros [|b y]; simpl; try done.
  intros Hxy Hyx. specialize (IH y).
  cmp_chars a b; cmp_chars b a; f_equal; auto.
Qed.

Lemma sorted_elem_of (xs : list pystr) x : x ∈ sorted xs <-> x ∈ xs.
Proof. unfold sorted. by rewrite merge_sort_Permutation. Qed.

Lemma StronglySorted_le_lt (l : list pystr) :
  StronglySorted pystr_le l -> NoDup l -> StronglySorted pystr_lt l.
Proof.
  induction 1 as [|x l Hl IH Hx]; intros Hnd; constructor.
  - apply IH. by apply NoDup_cons_1_2 in Hnd.
  - apply NoDup_cons_1_1 in Hnd.
    apply Forall_forall. intros y Hy. split.
    + rewrite Forall_forall in Hx. by apply Hx.
    + intros ->. by apply Hnd.
Qed.

(** [sorted] of the elements of a set: increasing, hence without repeats. *)
Lemma sorted_elements_strict (X : gset pystr) :
  StronglySorted pystr_lt (sorted (elements X)).
Proof.
  apply StronglySorted_le_lt.
  - apply StronglySorted_merge_sort; apply _.
  - unfold sorted. rewrite merge_sort_Permutation. apply NoDup_elements.
Qed.

(* ===================================================================== *)
(** * Domain expansion *)
(* ===================================================================== *)

Lemma expand_step_elem_of (X : gset pystr) (d x : pystr) :
  x ∈ expand_step X d <-> x ∈ X \/ expands_to d x.
Proof.
  unfold expand_step, expands_to.
  destruct (strip d) as [|c s] eqn:E.
  - split; [auto|]. intros [H|[H _]]; done.
  - destruct (startswith (py "www.") (c :: s)) eqn:Ew; simpl.
    + rewrite elem_of_union, elem_of_singleton. split.
      * intros [->|H]; [right|left]; auto.
      * intros [H|[_ [->|[? _]]]]; auto; done.
    + rewrite !elem_of_union, !elem_of_singleton. split.
      * intros [->|[->|H]]; auto.
      * intros [H|[_ [->|[_ ->]]]]; auto.
Qed.

Lemma expand_fold_elem_of (domains : list pystr) (X : gset pystr) (x : pystr) :
  x ∈ foldl expand_step X domains
  <-> x ∈ X \/ exists d, d ∈ domains /\ expands_to d x.
Proof.
  revert X; induction domains as [|d ds IH]; intros X; simpl.
  - split; [auto|]. intros [H|(d & Hd & _)]; [done|]. by apply elem_of_nil in Hd.
  - rewrite IH, expand_step_elem_of. split.
    + intros [[H|H]|(d' & Hd' & H)]; auto.
      * right. exists d. split; [left|done].
      * right. exists d'. split; [by right|done].
    + intros [H|(d' & Hd' & H)]; auto.
      apply elem_of_cons in Hd' as [->|Hd']; auto.
      right. by exists d'.
Qed.

Lemma expand_domains_elem_of (domains : list pystr) (x : pystr) :
  x ∈ _expand_domains domains <-> exists d, d ∈ domains /\ expands_to d x.
Proof.
  unfold _expand_domains.
  rewrite sorted_elem_of, elem_of_elements, expand_fold_elem_of.
  split; [|auto]. intros [H|H]; [|done]. by apply elem_of_empty in H.
Qed.

(** C4. [_expand_domains] is a total function of its input list. Every entry
    is stripped of the white space at its two ends (what is left neither
    begins nor ends with white space); an entry that strips to
    the empty string contributes nothing; each surviving [d] is in the
    result, and ["www." + d] is in the result exactly on account of a
    surviving [d] that does not start with ["www."], so that a member
    starting with ["www.www."] is always a stripped input entry itself; the
    result is strictly increasing in the lexicographic code-point order,
    that is, sorted and free of duplicates. *)
Theorem expand_domains_spec (domains : list pystr) :
  (forall d, exists l r,
       d = l ++ strip d ++ r
       /\ forallb isspace l = true /\ forallb isspace r = true
       /\ (forall c s, strip d = c :: s -> isspace c = false)
       /\ (forall c s, strip d = s ++ [c] -> isspace c = false))
  /\ (forall x, x ∈ _expand_domains domains
                <-> exists d, d ∈ domains /\ strip d <> []
                    /\ (x = strip d
                        \/ (startswith (py "www.") (strip d) = false
                            /\ x = py "www." ++ strip d)))
  /\ (forall x, x ∈ _expand_domains domains ->
                startswith (py "www.www.") x = true ->
                exists d, d ∈ domains /\ x = strip d)
  /\ StronglySorted pystr_lt (_expand_domains domains).
Proof.
  split.
  { intros d. destruct (strip_decompose d) as (l & r & Hd & Hl & Hr).
    exists l, r. repeat split; try done; apply strip_ends. }
  split; [apply expand_domains_elem_of|].
  split; [|apply sorted_elements_strict].
  intros x Hx Hww. apply expand_domains_elem_of in Hx as (d & Hd & _ & Hx).
  exists d. split; [done|].
  destruct Hx as [->|[Hno ->]]; [done|]. exfalso.
  change (py "www.www.") with (py "www." ++ py "www.") in Hww.
  apply startswith_true in Hww as [r Hr].
  rewrite <- app_assoc in Hr. apply app_inv_head in Hr.
  rewrite Hr, startswith_app in Hno. done.
Qed.

(* ===================================================================== *)
(** * The block section and [is_block_active] *)
(* ===================================================================== *)

Section BlockSection.

Implicit Types (content sec sep s : pystr).

Lemma startswith_app_l p a b : startswith p a = true -> startswith p (a ++ b) = true.
Proof.
  intros [r ->]%startswith_true. by rewrite <- app_assoc, startswith_app.
Qed.

Lemma contains_short sep s : length s < length sep -> contains sep s = false.
Proof.
  intros Hlen. apply contains_false_not_occurs. intros (l & r & ->).
  rewrite !length_app in Hlen. lia.
Qed.

(** [find] returns the leftmost occurrence. *)
Lemma find_Some_leftmost sep s i :
  sep <> [] ->
  find sep s = Some i ->
  contains sep (firstn i s ++ removelast sep) = false.
Proof.
  intros Hne. destruct (exists_last Hne) as (init & x & ->).
  rewrite removelast_last.
  revert i; induction s as [|c s IH]; intros i; rewrite find_unfold.
  - destruct (startswith (init ++ [x]) []); [|done]. intros [= <-]. simpl.
    apply contains_short. rewrite length_app. simpl. lia.
  - destruct (startswith (init ++ [x]) (c :: s)) eqn:E.
    + intros [= <-]. simpl. apply contains_short. rewrite length_app. simpl. lia.
    + destruct (find (init ++ [x]) s) as [j|] eqn:Ej; [|done].
      intros [= <-]. simpl. rewrite (IH j eq_refl), orb_false_r.
      destruct (startswith (init ++ [x]) (c :: firstn j s ++ init)) eqn:E'; [|done].
      apply find_Some_split in Ej.
      rewrite Ej in E.
      replace (c :: firstn j s ++ (init ++ [x]) ++ skipn (j + length (init ++ [x])) s)
        with ((c :: firstn j s ++ init) ++ [x] ++ skipn (j + length (init ++ [x])) s) in E
        by (simpl; by rewrite <- !app_assoc).
      by rewrite (startswith_app_l _ _ _ E') in E.
Qed.

Lemma BLOCK_START_nonempty : BLOCK_START <> [].
Proof. done. Qed.

Lemma BLOCK_END_nonempty : BLOCK_END <> [].
Proof. done. Qed.

Lemma selected_section_of content sec :
  block_section_of content sec -> selected_section content = Ok sec.
Proof.
  intros (pre & rest & -> & Hs & Hsec). unfold selected_section.
  rewrite split1_leftmost
    by (apply BLOCK_START_nonempty || by apply contains_false_not_occurs).
  simpl. destruct Hsec as [(post & -> & He)|[-> He]].
  - rewrite split1_leftmost
      by (apply BLOCK_END_nonempty || by apply contains_false_not_occurs).
    done.
  - rewrite split1_not_contains by by apply contains_false_not_occurs.
    done.
Qed.

Lemma block_section_exists content :
  occurs_in BLOCK_START content -> exists sec, block_section_of content sec.
Proof.
  intros Hs%contains_spec. rewrite find_contains in Hs.
  destruct (find BLOCK_START content) as [i|] eqn:Ei; [|done].
  pose proof (find_Some_split _ _ _ Ei) as Hc.
  pose proof (find_Some_leftmost _ _ _ BLOCK_START_nonempty Ei) as Hl.
  set (rest := skipn (i + length BLOCK_START) content) in *.
  destruct (find BLOCK_END rest) as [j|] eqn:Ej.
  - exists (firstn j rest), (firstn i content), rest.
    split; [done|]. split; [by apply contains_false_not_occurs|].
    left. exists (skipn (j + length BLOCK_END) rest). split.
    + by apply find_Some_split.
    + apply contains_false_not_occurs.
      by apply find_Some_leftmost; [apply BLOCK_END_nonempty|].
  - exists rest, (firstn i content), rest.
    split; [done|]. split; [by apply contains_false_not_occurs|].
    right. split; [done|]. apply contains_false_not_occurs.
    rewrite find_contains, Ej. done.
Qed.

Lemma block_section_unique content sec sec' :
  block_section_of content sec -> block_section_of content sec' -> sec = sec'.
Proof.
  intros H H'. apply selected_section_of in H, H'. congruence.
Qed.

Lemma has_entry_spec (lines : list pystr) (d : pystr) :
  has_entry lines d = true
  <-> exists line, line ∈ lines /\ ends_with (py " " ++ d) (strip line).
Proof.
  unfold has_entry. rewrite existsb_exists. split.
  - intros (line & Hin & He). exists line.
    by rewrite list_elem_of_In, <- endswith_spec.
  - intros (line & Hin & He). exists line.
    by rewrite <- list_elem_of_In, endswith_spec.
Qed.

Lemma covers_spec sec (expanded : list pystr) :
  forallb (has_entry (splitlines sec)) expanded = true <-> covers sec expanded.
Proof.
  unfold covers. rewrite forallb_forall. split.
  - intros H d Hd. apply has_entry_spec, H. by apply list_elem_of_In.
  - intros H d Hd. apply has_entry_spec, H. by apply list_elem_of_In.
Qed.

Lemma is_block_active_unfold h domains content :
  _read_hosts h = Ok content ->
  is_block_active h domains =
  if negb (contains BLOCK_START content) || negb (contains BLOCK_END content)
  then Ok false
  else sec ← selected_section content;
       Ok (forallb (has_entry (splitlines sec)) (_expand_domains domains)).
Proof.
  intros Hr. unfold is_block_active, selected_section. rewrite Hr. simpl.
  destruct (negb _ || negb _); [done|].
  destruct (index (split1 BLOCK_START content) 1); [|done]. simpl.
  by destruct (index (split1 BLOCK_END a) 0).
Qed.

End BlockSection.

(** C3, as the code has it. When the hosts file is read as [content]:
    [is_block_active] returns false if the start marker or the end marker
    does not occur in it. Otherwise the block section exists and is unique
    (the text after the first start marker, up to the first end marker that
    follows it, or to the end of the file when none follows), the call
    returns a boolean without raising, and that boolean is true if and only
    if for every domain of the expanded set some line of the section, once
    white space is stripped from its two ends, ends with a space followed
    by exactly that domain. *)
Theorem is_block_active_spec (h : hosts_fs) (domains : list pystr) (content : pystr) :
  _read_hosts h = Ok content ->
  (~ occurs_in BLOCK_START content \/ ~ occurs_in BLOCK_END content ->
   is_block_active h domains = Ok false)
  /\ (occurs_in BLOCK_START content -> occurs_in BLOCK_END content ->
      exists sec b,
        block_section_of content sec
        /\ (forall sec', block_section_of content sec' -> sec' = sec)
        /\ is_block_active h domains = Ok b
        /\ (b = true <-> covers sec (_expand_domains domains))).
Proof.
  intros Hr. rewrite (is_block_active_unfold _ _ _ Hr). split.
  - intros [H|H]; apply contains_false_not_occurs in H; rewrite H; simpl;
      [done|by rewrite orb_true_r].
  - intros Hs He.
    destruct (block_section_exists _ Hs) as [sec Hsec].
    apply contains_spec in Hs, He. rewrite Hs, He. simpl.
    exists sec, (forallb (has_entry (splitlines sec)) (_expand_domains domains)).
    split; [done|]. split.
    { intros sec' H'. by apply (block_section_unique content). }
    rewrite (selected_section_of _ _ Hsec). split; [done|].
    apply covers_spec.
Qed.

Lemma expand_domains_nil_iff (domains : list pystr) :
  _expand_domains domains = [] <-> forall d, d ∈ domains -> forallb isspace d = true.
Proof.
  split.
  - intros He d Hd. apply strip_nil_iff.
    destruct (strip d) as [|c s] eqn:E; [done|exfalso].
    assert (c :: s ∈ _expand_domains domains) as Hin.
    { apply expand_domains_elem_of. exists d. split; [done|].
      split; [by rewrite E|left; by rewrite E]. }
    rewrite He in Hin. by apply elem_of_nil in Hin.
  - intros H. destruct (_expand_domains domains) as [|x l] eqn:E; [done|exfalso].
    assert (x ∈ _expand_domains domains) as Hin by (rewrite E; left).
    apply expand_domains_elem_of in Hin as (d & Hd & Hne & _).
    apply Hne, strip_nil_iff, H, Hd.
Qed.

(** C10. A raw domain list expands to nothing exactly when every entry
    consists of white space only (the empty list included). For such a
    list, when the hosts file is read as [content], [is_block_active]
    returns a boolean, and it is true exactly when both the start marker
    and the end marker occur in [content]. *)
Theorem is_block_active_empty_expansion
    (h : hosts_fs) (domains : list pystr) (content : pystr) :
  _read_hosts h = Ok content ->
  (_expand_domains domains = [] <-> forall d, d ∈ domains -> forallb isspace d = true)
  /\ (_expand_domains domains = [] ->
      exists b, is_block_active h domains = Ok b
                /\ (b = true <-> occurs_in BLOCK_START content
                                 /\ occurs_in BLOCK_END content)).
Proof.
  intros Hr. split; [apply expand_domains_nil_iff|].
  intros He. rewrite (is_block_active_unfold _ _ _ Hr), He.
  setoid_rewrite <- contains_spec.
  destruct (contains BLOCK_START content) eqn:Es;
    destruct (contains BLOCK_END content) eqn:Ee; simpl;
    try (exists false; split; [done|]; split; [done|intros []; done]).
  apply contains_spec, block_section_exists in Es as [sec Hsec].
  rewrite (selected_section_of _ _ Hsec). simpl. by exists true.
Qed.

(* ===================================================================== *)
(** * [is_block_active] on a concrete file *)
(* ===================================================================== *)

Lemma padded_section_is_section : block_section_of padded_file padded_section.
Proof.
  exists [], (padded_section ++ BLOCK_END). split; [done|].
  split; [by apply contains_false_not_occurs|].
  left. exists []. split; [done|]. by apply contains_false_not_occurs.
Qed.

(** C3, as the specification words it, fails: the only line between the
    markers that names [www.a] ends with a blank, so no line "ends with a
    space followed by exactly that domain", and yet the call returns true,
    because each line is stripped before it is compared. *)
Lemma is_block_active_unstripped_counterexample :
  occurs_in BLOCK_START padded_file
  /\ occurs_in BLOCK_END padded_file
  /\ block_section_of padded_file padded_section
  /\ is_block_active (hosts_file padded_file) [py "www.a"] = Ok true
  /\ ~ (forall d, d ∈ _expand_domains [py "www.a"] ->
          exists line, line ∈ splitlines padded_section
                       /\ ends_with (py " " ++ d) line).
Proof.
  split; [by apply contains_spec|].
  split; [by apply contains_spec|].
  split; [apply padded_section_is_section|].
  split; [by vm_compute|].
  intros H. destruct (H (py "www.a")) as (line & Hin & He).
  { apply expand_domains_elem_of. exists (py "www.a").
    split; [left|]. split; [done|by left]. }
  apply endswith_spec in He.
  change (splitlines padded_section) with [[]; py "127.0.0.1 www.a "] in Hin.
  apply elem_of_cons in Hin as [->|Hin]; [done|].
  apply elem_of_cons in Hin as [->|Hin]; [done|].
  by apply elem_of_nil in Hin.
Qed.

Lemma is_block_active_spec_witness :
  exists sec b,
    block_section_of padded_file sec
    /\ (forall sec', block_section_of padded_file sec' -> sec' = sec)
    /\ is_block_active (hosts_file padded_file) [py "www.a"] = Ok b
    /\ (b = true <-> covers sec (_expand_domains [py "www.a"])).
Proof.
  apply (is_block_active_spec (hosts_file padded_file) [py "www.a"] padded_file eq_refl).
  - exists [], (padded_section ++ BLOCK_END). reflexivity.
  - exists (BLOCK_START ++ padded_section), []. vm_compute. reflexivity.
Defined.

Lemma is_block_active_empty_expansion_witness :
  exists b, is_block_active (hosts_file padded_file) [py "  "; []] = Ok b
            /\ (b = true <-> occurs_in BLOCK_START padded_file
                             /\ occurs_in BLOCK_END padded_file).
Proof.
  apply (is_block_active_empty_expansion
           (hosts_file padded_file) [py "  "; []] padded_file eq_refl).
  vm_compute. reflexivity.
Defined.

(* ===================================================================== *)
(** * Applying twice, and applying then removing *)
(* ===================================================================== *)

(** C1 at a concrete input. On an empty hosts file, one [apply_block] for
    [example.com] writes exactly the block; a second [apply_block] for the
    same list writes a line feed followed by the block: the line feed that
    ended the end-marker line is outside what the splice removes, so the
    file after two calls is not the file after one. *)
Theorem apply_block_twice_differs :
  apply_block (hosts_file []) [py "example.com"] = Ok (hosts_file example_block)
  /\ apply_block (hosts_file example_block) [py "example.com"]
     = Ok (hosts_file (NL ++ example_block))
  /\ hosts_file (NL ++ example_block) <> hosts_file example_block.
Proof. split; [|split]; by vm_compute. Qed.

Section ApplyRemove.

Implicit Types (content p a b : pystr) (c : N).

Lemma startswith_past_char p a b c :
  c ∉ p -> startswith p (a ++ c :: b) = startswith p a.
Proof.
  revert a; induction p as [|x p IH]; intros a Hc; [done|].
  apply not_elem_of_cons in Hc as [Hx Hp].
  destruct a as [|y a]; simpl.
  - destruct (N.eqb_spec x c); [congruence|done].
  - by rewrite IH.
Qed.

(** A separator that does not hold [c] lies on one side of an occurrence
    of [c]. *)
Lemma contains_past_char p a b c :
  c ∉ p -> contains p (a ++ c :: b) = contains p a || contains p b.
Proof.
  intros Hc. induction a as [|y a IH].
  - pose proof (startswith_past_char p [] b c Hc) as H0.
    cbn [app] in *. cbn [contains]. by rewrite H0, orb_false_r.
  - cbn [app contains]. rewrite IH.
    change (y :: a ++ c :: b) with ((y :: a) ++ c :: b).
    rewrite (startswith_past_char p (y :: a) b c Hc).
    by rewrite orb_assoc.
Qed.

Lemma join_cons sep p (ps : list pystr) :
  ps <> [] -> join sep (p :: ps) = p ++ sep ++ join sep ps.
Proof. by destruct ps. Qed.

Lemma join_snoc sep (ps : list pystr) p :
  ps <> [] -> join sep (ps ++ [p]) = join sep ps ++ sep ++ p.
Proof.
  induction ps as [|q ps IH]; [done|]. intros _.
  destruct ps as [|q' ps]; [done|].
  change ((q :: q' :: ps) ++ [p]) with (q :: (q' :: ps) ++ [p]).
  rewrite !join_cons by done. rewrite IH by done.
  by rewrite <- !app_assoc.
Qed.

(** The text of a block: the start marker, then a text in which the end
    marker occurs. *)
Lemma block_text (expanded : list pystr) :
  exists body, join NL (block_lines expanded) ++ NL
               = BLOCK_START ++ body ++ BLOCK_END ++ NL.
Proof.
  unfold block_lines.
  set (entries := flat_map (fun d => [py "127.0.0.1 " ++ d; py "::1 " ++ d]) expanded).
  exists (NL ++ join NL ([COMMENT_PURPOSE; COMMENT_REMOVAL] ++ entries) ++ NL).
  change ([BLOCK_START; COMMENT_PURPOSE; COMMENT_REMOVAL] ++ entries ++ [BLOCK_END])
    with (BLOCK_START :: ([COMMENT_PURPOSE; COMMENT_REMOVAL] ++ entries) ++ [BLOCK_END]).
  rewrite join_cons by done. rewrite join_snoc by done.
  by rewrite <- !app_assoc.
Qed.

Lemma newline_not_in_start : 10%N ∉ BLOCK_START.
Proof. apply (bool_decide_unpack _). by vm_compute. Qed.

Lemma newline_terminated_cases content :
  contains BLOCK_START content = false ->
  newline_terminated content = []
  \/ exists a0, newline_terminated content = a0 ++ NL
                /\ contains BLOCK_START a0 = false.
Proof.
  intros Hno. unfold newline_terminated.
  destruct content as [|x content]; [by left|right].
  destruct (endswith NL (x :: content)) eqn:E; simpl.
  - apply endswith_spec in E as [a0 Hc]. exists a0. split; [done|].
    rewrite Hc in Hno. unfold NL in Hno.
    rewrite contains_past_char in Hno by apply newline_not_in_start.
    by apply orb_false_iff in Hno as [-> _].
  - by exists (x :: content).
Qed.

(** No start marker begins in the text that precedes a freshly appended
    block. *)
Lemma no_start_before_block content :
  contains BLOCK_START content = false ->
  contains BLOCK_START (newline_terminated content ++ removelast BLOCK_START) = false.
Proof.
  intros Hno. destruct (newline_terminated_cases _ Hno) as [->|(a0 & -> & Ha0)].
  - by vm_compute.
  - rewrite <- app_assoc. unfold NL. cbn [app].
    rewrite contains_past_char by apply newline_not_in_start.
    rewrite Ha0. by vm_compute.
Qed.

Lemma newline_terminated_extends content :
  exists t, newline_terminated content = content ++ t
            /\ (content <> [] -> ~ ends_with NL content -> t = NL).
Proof.
  unfold newline_terminated. destruct content as [|x content].
  - by exists [].
  - destruct (endswith NL (x :: content)) eqn:E; simpl.
    + exists []. rewrite app_nil_r. split; [done|].
      intros _ Hn. by apply endswith_spec in E.
    + by exists NL.
Qed.

Lemma apply_block_no_start content (domains : list pystr) :
  contains BLOCK_START content = false ->
  apply_block (hosts_file content) domains
  = Ok (hosts_file (newline_terminated content
                    ++ join NL (block_lines (_expand_domains domains)) ++ NL)).
Proof.
  intros Hno. unfold apply_block, newline_terminated. simpl. rewrite Hno. simpl.
  by destruct content.
Qed.

Lemma remove_block_file content :
  remove_block (hosts_file content)
  = if contains BLOCK_START content && contains BLOCK_END content then
      '(before, rest) ← unpack2 (split1 BLOCK_START content);
      '(_, after) ← unpack2 (split1 BLOCK_END rest);
      Ok (hosts_file (before ++ after))
    else Ok (hosts_file content).
Proof. reflexivity. Qed.

Lemma apply_block_file content (domains : list pystr) :
  apply_block (hosts_file content) domains
  = (kept ←
       (if contains BLOCK_START content && contains BLOCK_END content then
          '(before, rest) ← unpack2 (split1 BLOCK_START content);
          '(_, after) ← unpack2 (split1 BLOCK_END rest);
          Ok (before ++ after)
        else Ok content);
     Ok (hosts_file (newline_terminated kept
                     ++ join NL (block_lines (_expand_domains domains)) ++ NL))).
Proof.
  unfold apply_block. cbn [_read_hosts hosts_file hosts_readable hosts_text].
  cbn [mbind result_bind].
  by destruct (if contains BLOCK_START content && contains BLOCK_END content
               then _ else _).
Qed.

Lemma newline_terminated_length content :
  length content <= length (newline_terminated content).
Proof.
  destruct (newline_terminated_extends content) as (t & -> & _).
  rewrite length_app. lia.
Qed.

(** On a file without a start marker, a second [apply_block] for the same
    list always writes a longer file than the first: what the splice leaves
    behind of the first block is never empty. *)
Lemma apply_block_twice_longer content (domains : list pystr) :
  ~ occurs_in BLOCK_START content ->
  exists once twice,
    apply_block (hosts_file content) domains = Ok (hosts_file once)
    /\ apply_block (hosts_file once) domains = Ok (hosts_file twice)
    /\ length once < length twice.
Proof.
  intros Hs%contains_false_not_occurs.
  destruct (block_text (_expand_domains domains)) as [body Hblock].
  assert (contains BLOCK_END (body ++ BLOCK_END ++ NL) = true) as He
    by (apply contains_spec; by exists body, NL).
  destruct (split1_contains _ _ He) as (x & after & Hsplit & Hafter).
  assert (after <> []) as Hne.
  { intros ->. rewrite app_nil_r in Hafter.
    apply (f_equal (@rev N)) in Hafter.
    rewrite !rev_app_distr in Hafter. by vm_compute in Hafter. }
  set (once := newline_terminated content ++ BLOCK_START ++ body ++ BLOCK_END ++ NL).
  exists once,
    (newline_terminated (newline_terminated content ++ after)
     ++ join NL (block_lines (_expand_domains domains)) ++ NL).
  split; [|split].
  - rewrite (apply_block_no_start _ _ Hs). by rewrite Hblock.
  - assert (contains BLOCK_START once = true) as H1
      by (apply contains_spec; by eexists _, _).
    assert (contains BLOCK_END once = true) as H2.
    { apply contains_spec.
      exists (newline_terminated content ++ BLOCK_START ++ body), NL.
      subst once. by rewrite <- !app_assoc. }
    rewrite apply_block_file, H1, H2. cbn [andb]. subst once.
    rewrite split1_leftmost
      by (apply BLOCK_START_nonempty || by apply no_start_before_block).
    cbn [unpack2 mbind result_bind]. rewrite Hsplit.
    by cbn [unpack2 mbind result_bind].
  - pose proof (newline_terminated_length (newline_terminated content ++ after)) as Hl.
    subst once. rewrite <- Hblock, !length_app in *.
    destruct after; [done|]. simpl in *. lia.
Qed.

End ApplyRemove.

(** C2 at a concrete input. No marker occurs in the empty hosts file. There
    [apply_block] for [example.com] writes exactly the block, and
    [remove_block] on the file so written leaves one line feed, the one
    that ended the end-marker line: the file is not the empty file it
    was before the two calls. *)
Theorem apply_then_remove_leaves_line_feed :
  contains BLOCK_START [] = false
  /\ contains BLOCK_END [] = false
  /\ apply_block (hosts_file []) [py "example.com"] = Ok (hosts_file example_block)
  /\ remove_block (hosts_file example_block) = Ok (hosts_file NL)
  /\ hosts_file NL <> hosts_file [].
Proof. repeat split; by vm_compute. Qed.

(* ===================================================================== *)
(** * The state store *)
(* ===================================================================== *)

Section StoreFacts.

Implicit Types (fs : state_fs) (d data state : dict) (k : pystr) (v : json).

Lemma load_parsed fs d : parsed_state fs = Some d -> load fs = (with_defaults d, fs).
Proof.
  unfold parsed_state, load, load_body, read_state.
  destruct (state_json fs) as [[[]| |]|]; try done.
  by intros [= ->].
Qed.

Lemma load_unparsed fs :
  parsed_state fs = None -> load fs = (DEFAULT_STATE, _write_state fs DEFAULT_STATE).
Proof.
  unfold parsed_state, load, load_body, read_state.
  by destruct (state_json fs) as [[[]| |]|].
Qed.

Lemma parsed_write_state fs data : parsed_state (_write_state fs data) = Some data.
Proof. done. Qed.

Lemma setdefault_lookup_Some d k k' v v' :
  d !! k = Some v -> setdefault d k' v' !! k = Some v.
Proof.
  intros H. unfold setdefault. destruct (d !! k') eqn:E; [done|].
  rewrite lookup_insert_ne; [done|]. intros ->. congruence.
Qed.

Lemma setdefault_lookup_self d k v : is_Some (setdefault d k v !! k).
Proof.
  unfold setdefault. destruct (d !! k) eqn:E; [by rewrite E|].
  by rewrite lookup_insert_eq.
Qed.

Lemma setdefault_present d k v : is_Some (d !! k) -> setdefault d k v = d.
Proof. unfold setdefault. by intros [x ->]. Qed.

Lemma with_defaults_lookup_Some d k v :
  d !! k = Some v -> with_defaults d !! k = Some v.
Proof. intros H. unfold with_defaults. by do 3 apply setdefault_lookup_Some. Qed.

Lemma with_defaults_full d : full (with_defaults d).
Proof.
  unfold full, with_defaults. repeat split.
  - destruct (setdefault_lookup_self d K_DOMAINS (jstrs DEFAULT_DOMAINS)) as [x Hx].
    exists x. by do 2 apply setdefault_lookup_Some.
  - destruct (setdefault_lookup_self
                (setdefault d K_DOMAINS (jstrs DEFAULT_DOMAINS)) K_STARTED JNull)
      as [x Hx].
    exists x. by apply setdefault_lookup_Some.
  - apply setdefault_lookup_self.
Qed.

Lemma with_defaults_of_full d : full d -> with_defaults d = d.
Proof.
  intros (H1 & H2 & H3). unfold with_defaults.
  by rewrite (setdefault_present d), (setdefault_present d), (setdefault_present d).
Qed.

Lemma full_insert d k v : full d -> full (<[k := v]> d).
Proof.
  intros (H1 & H2 & H3). unfold full.
  rewrite !lookup_insert_is_Some'. auto.
Qed.

Lemma DEFAULT_STATE_full : full DEFAULT_STATE.
Proof. unfold full, DEFAULT_STATE. rewrite !lookup_insert_is_Some'. auto 10. Qed.

Lemma load_full fs : full (load fs).1.
Proof.
  destruct (parsed_state fs) as [d|] eqn:E.
  - rewrite (load_parsed _ _ E). apply with_defaults_full.
  - rewrite (load_unparsed _ E). apply DEFAULT_STATE_full.
Qed.

(** [load] leaves behind a file that parses to the state it returned. *)
Lemma load_parsed_after fs :
  exists d, parsed_state (load fs).2 = Some d /\ with_defaults d = (load fs).1.
Proof.
  destruct (parsed_state fs) as [d|] eqn:E.
  - rewrite (load_parsed _ _ E). by exists d.
  - rewrite (load_unparsed _ E). exists DEFAULT_STATE. split; [done|].
    apply with_defaults_of_full, DEFAULT_STATE_full.
Qed.

Lemma load_again fs : load (load fs).2 = load fs.
Proof.
  destruct (load_parsed_after fs) as (d & Hd & Hw).
  rewrite (load_parsed _ _ Hd), Hw. by destruct (load fs).
Qed.

(** Only [state.json] decides what [load] returns. *)
Lemma load_ext fs fs' : state_json fs = state_json fs' -> (load fs).1 = (load fs').1.
Proof.
  intros H. assert (parsed_state fs = parsed_state fs') as Hp
    by (unfold parsed_state; by rewrite H).
  destruct (parsed_state fs') as [d|] eqn:E.
  - by rewrite (load_parsed fs d), (load_parsed fs' d).
  - by rewrite (load_unparsed fs), (load_unparsed fs').
Qed.

Lemma load_save fs data : load (save fs data) = (with_defaults data, save fs data).
Proof. by apply load_parsed. Qed.

(** Reading back a field that was just stored over a loaded state. *)
Lemma load_update fs k v :
  (load (save (load fs).2 (<[k := v]> (load fs).1))).1 = <[k := v]> (load fs).1.
Proof.
  rewrite load_save. simpl.
  apply with_defaults_of_full, full_insert, load_full.
Qed.

Lemma keys_distinct :
  K_DOMAINS <> K_STARTED /\ K_DOMAINS <> K_ONBOARDED /\ K_STARTED <> K_ONBOARDED.
Proof. done. Qed.

Lemma set_domains_unfold fs domains :
  set_domains fs domains
  = save (load fs).2 (<[K_DOMAINS := jstrs (strip_nonblank domains)]> (load fs).1).
Proof. unfold set_domains. by destruct (load fs). Qed.

Lemma start_uninstall_timer_unfold fs now :
  start_uninstall_timer fs now
  = save (load fs).2 (<[K_STARTED := JNum now]> (load fs).1).
Proof. unfold start_uninstall_timer. by destruct (load fs). Qed.

Lemma cancel_uninstall_timer_unfold fs :
  cancel_uninstall_timer fs = save (load fs).2 (<[K_STARTED := JNull]> (load fs).1).
Proof. unfold cancel_uninstall_timer. by destruct (load fs). Qed.

Lemma set_onboarding_completed_unfold fs completed :
  set_onboarding_completed fs completed
  = save (load fs).2 (<[K_ONBOARDED := JBool completed]> (load fs).1).
Proof. unfold set_onboarding_completed. by destruct (load fs). Qed.

Lemma get_uninstall_started_at_unfold fs :
  get_uninstall_started_at fs = (started_of (load fs).1, (load fs).2).
Proof. unfold get_uninstall_started_at, started_of. by destruct (load fs). Qed.

Lemma get_domains_unfold fs :
  get_domains fs
  = (py_list (default (jstrs DEFAULT_DOMAINS) ((load fs).1 !! K_DOMAINS)), (load fs).2).
Proof. unfold get_domains. by destruct (load fs). Qed.

Lemma uninstall_ready_unfold fs now delay :
  uninstall_ready fs now delay
  = (match started_of (load fs).1 with
     | None => false
     | Some started => Qle_bool (inject_Z delay) (now - started)
     end, (load fs).2).
Proof.
  unfold uninstall_ready. rewrite get_uninstall_started_at_unfold.
  by destruct (started_of (load fs).1).
Qed.

Lemma started_fst fs : (get_uninstall_started_at fs).1 = started_of (load fs).1.
Proof. by rewrite get_uninstall_started_at_unfold. Qed.

Lemma ready_fst fs now delay :
  (uninstall_ready fs now delay).1
  = match started_of (load fs).1 with
    | None => false
    | Some started => Qle_bool (inject_Z delay) (now - started)
    end.
Proof. by rewrite uninstall_ready_unfold. Qed.

Lemma started_after_cancel fs :
  (get_uninstall_started_at (cancel_uninstall_timer fs)).1 = None.
Proof.
  rewrite started_fst, cancel_uninstall_timer_unfold.
  rewrite load_update. unfold started_of. by rewrite lookup_insert_eq.
Qed.

Lemma started_after_start fs t :
  (get_uninstall_started_at (start_uninstall_timer fs t)).1 = Some t.
Proof.
  rewrite started_fst, start_uninstall_timer_unfold.
  rewrite load_update. unfold started_of. by rewrite lookup_insert_eq.
Qed.

End StoreFacts.

(* ===================================================================== *)
(** * The timer gate on floats *)
(* ===================================================================== *)

Section TimerFloats.

Import Binary64.

Implicit Types (x now started : float) (n delay : Z) (val : held).

Lemma ge_int_spec x n :
  ge_int x n = true
  <-> x = S754_infinity false
      \/ exists q, float_value x = Some q /\ (inject_Z n <= q)%Q.
Proof.
  unfold ge_int. destruct (float_value x) as [q|] eqn:E.
  - rewrite Qle_bool_iff. split.
    + intros H. right. by exists q.
    + intros [->|(q' & [= <-] & H)]; [done|exact H].
  - split.
    + destruct x as [|[]| |]; try done. by left.
    + intros [->|(q & [=] & _)]. done.
Qed.

Lemma field_after_cancel (fs : state_fs) :
  field (cancel_uninstall_timer fs) K_STARTED = Some JNull.
Proof.
  unfold field. rewrite cancel_uninstall_timer_unfold, load_update.
  by rewrite lookup_insert_eq.
Qed.

Lemma field_after_start (fs : state_fs) (t : Q) :
  field (start_uninstall_timer fs t) K_STARTED = Some (JNum t).
Proof.
  unfold field. rewrite start_uninstall_timer_unfold, load_update.
  by rewrite lookup_insert_eq.
Qed.

(** Where the float difference is the exact one, the gate on floats and
    the gate on rationals return the same. *)
Lemma uninstall_ready_exact (fs : state_fs) now started delay (qn qs q : Q) :
  field fs K_STARTED = Some (JNum qs) ->
  float_value (fsub now started) = Some q ->
  (q == qn - qs)%Q ->
  Binary64.uninstall_ready (HFloat started) now delay
  = Ok (Store.uninstall_ready fs qn delay).1.
Proof.
  unfold field. intros Hf Hq Heq.
  rewrite ready_fst. unfold started_of. rewrite Hf.
  cbn [Binary64.uninstall_ready Binary64.get_uninstall_started_at
         mbind result_bind].
  unfold ge_int. rewrite Hq. f_equal.
  destruct (Qle_bool (inject_Z delay) q) eqn:E1,
           (Qle_bool (inject_Z delay) (qn - qs)) eqn:E2; try done.
  - apply Qle_bool_iff in E1. rewrite Heq in E1.
    apply Qle_bool_iff in E1. congruence.
  - apply Qle_bool_iff in E2. rewrite <- Heq in E2.
    apply Qle_bool_iff in E2. congruence.
Qed.

End TimerFloats.

(** C5, as the specification words it, fails where the float difference
    is not the exact one. With a stored timestamp of 2^-60 and the clock
    at 900.0, less than 900 seconds have elapsed, and [uninstall_ready]
    returns true for a delay of 900: the difference rounds to 900.0. With
    a stored integer of -10^400 the elapsed time is above every delay,
    and [uninstall_ready] raises [OverflowError]. *)
Lemma uninstall_ready_rounding_counterexample :
  (exists q, Binary64.float_value clock_900 = Some q /\ (q == inject_Z 900)%Q)
  /\ (exists q, Binary64.float_value started_tiny = Some q
                 /\ (q == 1 # 2 ^ 60)%Q)
  /\ (inject_Z 900 - (1 # 2 ^ 60) < inject_Z UNINSTALL_DELAY_SECONDS)%Q
  /\ Binary64.uninstall_ready (Binary64.HFloat started_tiny) clock_900
       UNINSTALL_DELAY_SECONDS = Ok true
  /\ Binary64.uninstall_ready (Binary64.HInt (- 10 ^ 400)) clock_900
       UNINSTALL_DELAY_SECONDS = Raise OverflowError.
Proof.
  split; [eexists; split; [reflexivity|by vm_compute]|].
  split; [eexists; split; [reflexivity|by vm_compute]|].
  repeat split; by vm_compute.
Qed.

(** C5, as the code has it. [uninstall_ready] returns false when the stored
    value is not a number, as it is right after [cancel_uninstall_timer].
    For a stored number it returns true exactly when the float
    [time.time() - started], as binary64 subtraction rounds it, is at
    least the delay, where [started] is the stored float, or the float
    nearest to the stored integer; it raises [OverflowError] when the
    stored integer is too large for a float. Right after
    [start_uninstall_timer] at [t0] the stored number is [t0]. A float is
    at least the delay when it is plus infinity, or finite and not below
    it; so wherever the float difference is the exact elapsed time, the
    call returns true exactly when that time is at least the delay. *)
Theorem uninstall_ready_binary64 (now : Binary64.float) (delay : Z) :
  Binary64.uninstall_ready Binary64.HNone now delay = Ok false
  /\ Binary64.uninstall_ready Binary64.HOther now delay = Ok false
  /\ (forall (fs : state_fs) (j : json) (val : Binary64.held),
        field (cancel_uninstall_timer fs) K_STARTED = Some j ->
        Binary64.stands_for j val ->
        j = JNull /\ Binary64.uninstall_ready val now delay = Ok false)
  /\ (forall started : Binary64.float,
        Binary64.uninstall_ready (Binary64.HFloat started) now delay
        = Ok (Binary64.ge_int (Binary64.fsub now started) delay))
  /\ (forall (n : Z) (started : Binary64.float),
        Binary64.float_of_int n = Ok started ->
        Binary64.uninstall_ready (Binary64.HInt n) now delay
        = Ok (Binary64.ge_int (Binary64.fsub now started) delay))
  /\ (forall n : Z,
        Binary64.float_of_int n = Raise OverflowError ->
        Binary64.uninstall_ready (Binary64.HInt n) now delay = Raise OverflowError)
  /\ (forall n : Z,
        Binary64.float_of_int n = Raise OverflowError
        \/ exists started, Binary64.float_of_int n = Ok started)
  /\ (forall b : bool,
        Binary64.uninstall_ready (Binary64.HBool b) now delay
        = Binary64.uninstall_ready (Binary64.HInt (if b then 1 else 0)) now delay)
  /\ (forall (fs : state_fs) (t0 : Binary64.float) (q0 : Q),
        Binary64.float_value t0 = Some q0 ->
        field (start_uninstall_timer fs q0) K_STARTED = Some (JNum q0)
        /\ Binary64.stands_for (JNum q0) (Binary64.HFloat t0))
  /\ (forall x : Binary64.float,
        Binary64.ge_int x delay = true
        <-> x = S754_infinity false
            \/ exists q, Binary64.float_value x = Some q
                         /\ (inject_Z delay <= q)%Q)
  /\ (forall (started : Binary64.float) (qn qs q : Q),
        Binary64.float_value now = Some qn ->
        Binary64.float_value started = Some qs ->
        Binary64.float_value (Binary64.fsub now started) = Some q ->
        (q == qn - qs)%Q ->
        Binary64.uninstall_ready (Binary64.HFloat started) now delay = Ok true
        <-> (inject_Z delay <= qn - qs)%Q).
Proof.
  split_and!.
  - done.
  - done.
  - intros fs j val Hj Hval. rewrite field_after_cancel in Hj.
    injection Hj as <-. split; [done|]. by inversion Hval.
  - done.
  - intros n started Hn.
    unfold Binary64.uninstall_ready, Binary64.get_uninstall_started_at.
    by rewrite Hn.
  - intros n Hn.
    unfold Binary64.uninstall_ready, Binary64.get_uninstall_started_at.
    by rewrite Hn.
  - intros n. unfold Binary64.float_of_int.
    destruct (Binary64.nearest n 0); eauto.
  - by intros [].
  - intros fs t0 q0 Ht. split; [apply field_after_start|].
    by apply (Binary64.stands_for_float q0 q0 t0).
  - intros x. exact (ge_int_spec x delay).
  - intros started qn qs q _ _ Hq Heq.
    cbn [Binary64.uninstall_ready Binary64.get_uninstall_started_at
           mbind result_bind].
    unfold Binary64.ge_int. rewrite Hq, <- Heq, <- Qle_bool_iff.
    split; [by intros [= ->]|by intros ->].
Qed.

Lemma uninstall_ready_binary64_witness :
  Binary64.uninstall_ready (Binary64.HFloat clock_start) clock_end
    UNINSTALL_DELAY_SECONDS = Ok true.
Proof.
  pose proof (uninstall_ready_binary64 clock_end UNINSTALL_DELAY_SECONDS) as H.
  destruct H as (_ & _ & _ & _ & _ & _ & _ & _ & _ & _ & H).
  eapply H.
  - reflexivity.
  - reflexivity.
  - reflexivity.
  - vm_compute. reflexivity.
  - vm_compute. discriminate.
Defined.

(** C7, as the specification words it, fails in a data directory the
    process may not write: the text of [state.json] does not parse, the
    handler of [load] calls [_write_state], and [load] raises what that
    call raises. *)
Lemma load_raises_counterexample :
  load_body corrupt_store = Raise JSONDecodeError
  /\ Checked.load false corrupt_store = Raise PermissionError.
Proof. split; reflexivity. Qed.

Lemma checked_write_state_writable (fs : state_fs) (data : dict) :
  Checked._write_state true fs data = Ok (_write_state fs data).
Proof. reflexivity. Qed.

Lemma checked_write_state_refused (fs : state_fs) (data : dict) :
  Checked._write_state false fs data = Raise PermissionError.
Proof. reflexivity. Qed.

(** In a directory that takes every write, [load] is the function of
    [Store]. *)
Lemma checked_load_writable (fs : state_fs) :
  Checked.load true fs = Ok (load fs).
Proof.
  unfold Checked.load, load, try_except.
  destruct (load_body fs); [done|].
  by rewrite checked_write_state_writable.
Qed.

(** A state file that is read and parsed is returned with nothing
    written, whether or not the directory may be written. *)
Lemma checked_load_parsed (writable : bool) (fs : state_fs)
    (loaded : dict * state_fs) :
  load_body fs = Ok loaded -> Checked.load writable fs = Ok loaded.
Proof. unfold Checked.load. by intros ->. Qed.

(** C7, as the code has it. When [state.json] is missing, or its text does
    not parse, or it parses to something other than an object, the body of
    [load] raises, and [load] catches it and rewrites the file with the
    default state. When the directory takes the write, [load] returns the
    default state, which holds the built-in domain list, no pending timer
    and onboarding not completed, and the next [load] returns the same.
    When the directory refuses the write, [load] raises
    [PermissionError]. *)
Theorem load_resets_or_raises (fs : state_fs) :
  (state_json fs = None
   \/ (exists t e, state_json fs = Some t /\ json_loads t = Raise e)
   \/ (exists t v, state_json fs = Some t /\ json_loads t = Ok v
                   /\ forall d, v <> JDict d)) ->
  (exists e, load_body fs = Raise e)
  /\ Checked.load true fs = Ok (DEFAULT_STATE, _write_state fs DEFAULT_STATE)
  /\ Checked.load true fs = Ok (load fs)
  /\ state_json (load fs).2 = Some (json_dumps (JDict DEFAULT_STATE))
  /\ DEFAULT_STATE !! K_DOMAINS = Some (jstrs DEFAULT_DOMAINS)
  /\ DEFAULT_STATE !! K_STARTED = Some JNull
  /\ DEFAULT_STATE !! K_ONBOARDED = Some (JBool false)
  /\ Checked.load true (load fs).2 = Ok (DEFAULT_STATE, (load fs).2)
  /\ Checked.load false fs = Raise PermissionError.
Proof.
  intros H.
  assert (exists e, load_body fs = Raise e) as [e He].
  { unfold load_body, read_state.
    destruct H as [->|[(t & e & -> & Ht)|(t & v & -> & Ht & Hv)]].
    - by eexists.
    - simpl. rewrite Ht. by eexists.
    - simpl. rewrite Ht. simpl. destruct v; try by eexists.
      by destruct (Hv d). }
  assert (load fs = (DEFAULT_STATE, _write_state fs DEFAULT_STATE)) as Hl
    by (unfold load; by rewrite He).
  split; [by exists e|].
  split; [by rewrite checked_load_writable, Hl|].
  split; [apply checked_load_writable|].
  rewrite Hl. cbn [fst snd].
  repeat split; try done.
  unfold Checked.load. by rewrite He.
Qed.

Lemma load_resets_or_raises_witness :
  Checked.load true corrupt_store
  = Ok (DEFAULT_STATE, _write_state corrupt_store DEFAULT_STATE)
  /\ Checked.load false corrupt_store = Raise PermissionError.
Proof.
  pose proof (load_resets_or_raises corrupt_store) as H.
  destruct H as (_ & H1 & _ & _ & _ & _ & _ & _ & H2).
  - right. left. exists (Garbage (py "{not json")), JSONDecodeError.
    split; reflexivity.
  - split; [exact H1|exact H2].
Defined.

(** The directories [_write_state] can be cut short in, as its two calls
    give them: the one it started from; [state.tmp] holding a part of the
    new text; [state.tmp] holding all of it; the one it ends in. *)
Lemma interrupted_cases (fs fs' : state_fs) (data : dict) :
  interrupted fs data fs'
  <-> fs' = fs
      \/ (exists n, fs' = put_file fs TmpPath (Some (Truncated (JDict data) n)))
      \/ fs' = put_file fs TmpPath (Some (json_dumps (JDict data)))
      \/ fs' = _write_state fs data.
Proof.
  unfold interrupted, _write_state_calls. split.
  - intros H. inversion H as [| c cs f f' Hm | c cs f f' Hc]; subst.
    + by left.
    + right. left. inversion Hm; subst. by eexists.
    + right. right.
      inversion Hc as [| c cs f f' Hm | c cs f f' Hc']; subst.
      * by left.
      * inversion Hm.
      * right. inversion Hc'; subst. reflexivity.
  - intros [->|[[n ->]|[->| ->]]].
    + apply cut_between.
    + apply cut_within, midway_write_text.
    + apply cut_after, cut_between.
    + apply cut_after, cut_after, cut_between.
Qed.

(** C8. [save] writes the whole serialised state to [state.tmp], beside
    [state.json], and then renames it over [state.json]. Whatever the point
    at which the two calls are cut short, [state.json] is the old file or
    the whole new one, and a [load] that follows returns what it would
    have returned before the save or what it returns after the completed
    save, which is the saved state with any missing field filled in. *)
Theorem save_atomic (fs fs' : state_fs) (data : dict) :
  interrupted fs data fs' ->
  (state_json fs' = state_json fs
   \/ state_json fs' = Some (json_dumps (JDict data)))
  /\ ((load fs').1 = (load fs).1 \/ (load fs').1 = (load (save fs data)).1)
  /\ (load (save fs data)).1 = with_defaults data
  /\ state_json (save fs data) = Some (json_dumps (JDict data))
  /\ state_tmp (save fs data) = None.
Proof.
  intros H%interrupted_cases.
  assert (state_json fs' = state_json fs
          \/ state_json fs' = state_json (save fs data)) as Hj
    by (destruct H as [->|[[n ->]|[->| ->]]]; auto).
  split; [exact Hj|]. split; [|split; [|split]].
  - destruct Hj as [Hj|Hj]; [left|right]; by apply load_ext.
  - by rewrite load_save.
  - done.
  - done.
Qed.

Lemma save_atomic_witness :
  let fs' :=
    put_file default_store TmpPath (Some (Truncated (JDict started_at_5) 7)) in
  (state_json fs' = state_json default_store
   \/ state_json fs' = Some (json_dumps (JDict started_at_5)))
  /\ ((load fs').1 = (load default_store).1
      \/ (load fs').1 = (load (save default_store started_at_5)).1)
  /\ (load (save default_store started_at_5)).1 = with_defaults started_at_5
  /\ state_json (save default_store started_at_5)
     = Some (json_dumps (JDict started_at_5))
  /\ state_tmp (save default_store started_at_5) = None.
Proof.
  intros fs'.
  apply (save_atomic default_store fs' started_at_5).
  apply cut_within, midway_write_text.
Defined.

(** The temporary file and the rename are what this rests on. A write of
    [state.json] in place, cut short in the same way, leaves a file that is
    neither the old one nor the new one, and the [load] that follows
    returns neither the old state nor the new one: it resets the store. *)
Lemma write_in_place_not_atomic :
  exists fs',
    cut (write_in_place_calls started_at_5) ready_store fs'
    /\ state_json fs' <> state_json ready_store
    /\ state_json fs' <> Some (json_dumps (JDict started_at_5))
    /\ (load fs').1 <> (load ready_store).1
    /\ (load fs').1 <> with_defaults started_at_5
    /\ (load fs').1 = DEFAULT_STATE.
Proof.
  exists (put_file ready_store StatePath (Some (Truncated (JDict started_at_5) 7))).
  split; [apply cut_within, midway_write_text|].
  split; [done|]. split; [done|].
  split; [|split; [|done]].
  - intros E. apply (f_equal (.!! K_STARTED)) in E. by vm_compute in E.
  - intros E. apply (f_equal (.!! K_STARTED)) in E. by vm_compute in E.
Qed.

(* ===================================================================== *)
(** * The persisted domain list *)
(* ===================================================================== *)

Section DomainList.

Implicit Types (fs : state_fs) (domains : list pystr).

Lemma py_list_jstrs (l : list pystr) : py_list (jstrs l) = Ok (map JStr l).
Proof. done. Qed.

Lemma domains_fst fs :
  (get_domains fs).1
  = py_list (default (jstrs DEFAULT_DOMAINS) ((load fs).1 !! K_DOMAINS)).
Proof. by rewrite get_domains_unfold. Qed.

Lemma strip_nonblank_elem_of domains (x : pystr) :
  x ∈ strip_nonblank domains <-> x <> [] /\ exists d, d ∈ domains /\ x = strip d.
Proof.
  unfold strip_nonblank. rewrite list_elem_of_filter, list_elem_of_In, in_map_iff.
  split.
  - intros (Hne & d & <- & Hd). split; [done|]. exists d.
    by rewrite list_elem_of_In.
  - intros (Hne & d & Hd & ->). split; [done|]. exists d.
    by rewrite <- list_elem_of_In.
Qed.

Lemma strip_nonblank_nonempty domains :
  strip_nonblank domains <> [] <-> exists d, d ∈ domains /\ strip d <> [].
Proof.
  split.
  - intros Hne. destruct (strip_nonblank domains) as [|x l] eqn:E; [done|].
    assert (x ∈ strip_nonblank domains) as Hx by (rewrite E; left).
    apply strip_nonblank_elem_of in Hx as (Hx & d & Hd & ->). by exists d.
  - intros (d & Hd & Hne) E.
    assert (strip d ∈ strip_nonblank domains) as Hx
      by (apply strip_nonblank_elem_of; split; [done|by exists d]).
    rewrite E in Hx. by apply elem_of_nil in Hx.
Qed.

Lemma preset_nonempty fs (l : list pystr) :
  _load_preset_domains_if_available fs = Some l -> l <> [].
Proof.
  unfold _load_preset_domains_if_available.
  destruct (preset_txt fs) as [raw|]; [|done].
  destruct (filter _ _); [done|]. by intros [= <-].
Qed.

(** An update of another field keeps the domain list. *)
Lemma domains_after_update fs (k : pystr) (v : json) :
  k <> K_DOMAINS ->
  (get_domains (save (load fs).2 (<[k := v]> (load fs).1))).1 = (get_domains fs).1.
Proof.
  intros Hk. rewrite !domains_fst, load_update.
  by rewrite lookup_insert_ne.
Qed.

End DomainList.

(** C9, as the specification words it, fails: after first-run
    initialisation, [set_domains] with the empty list stores the empty
    list. *)
Lemma set_domains_empty_counterexample :
  state_json fresh_store = None
  /\ (get_domains (__init__ fresh_store)).1 = Ok (map JStr DEFAULT_DOMAINS)
  /\ (load (set_domains (__init__ fresh_store) [])).1 !! K_DOMAINS = Some (JList [])
  /\ ~ (exists l, (get_domains (set_domains (__init__ fresh_store) [])).1 = Ok l
                  /\ l <> []).
Proof.
  split; [done|]. split; [by vm_compute|]. split; [by vm_compute|].
  intros (l & Hl & Hne).
  rewrite set_domains_unfold, domains_fst, load_update, lookup_insert_eq in Hl.
  simpl in Hl. by injection Hl as <-.
Qed.

(** C9, as the code has it. First-run initialisation stores a non-empty
    domain list: the starter list when the preset file yields one, the
    built-in default otherwise. Starting or cancelling the timer and
    setting the onboarding flag leave the list as it was. [set_domains]
    stores exactly the stripped entries of its input that are not blank, so
    the list it leaves is non-empty if and only if some entry of the input
    is not all white space. *)
Theorem blocked_domains_nonempty (fs : state_fs) :
  (state_json fs = None ->
   exists l, (get_domains (__init__ fs)).1 = Ok (map JStr l) /\ l <> []
             /\ (_load_preset_domains_if_available fs = Some l
                 \/ (_load_preset_domains_if_available fs = None
                     /\ l = DEFAULT_DOMAINS)))
  /\ (forall domains,
        (get_domains (set_domains fs domains)).1
        = Ok (map JStr (strip_nonblank domains))
        /\ (strip_nonblank domains <> [] <-> exists d, d ∈ domains /\ strip d <> []))
  /\ (forall t, (get_domains (start_uninstall_timer fs t)).1 = (get_domains fs).1)
  /\ (get_domains (cancel_uninstall_timer fs)).1 = (get_domains fs).1
  /\ (forall c, (get_domains (set_onboarding_completed fs c)).1 = (get_domains fs).1).
Proof.
  destruct keys_distinct as (H1 & H2 & H3).
  split; [|split; [|split; [|split]]].
  - intros Hnone. unfold __init__. rewrite Hnone.
    set (l := match _load_preset_domains_if_available fs with
              | Some l => l
              | None => DEFAULT_DOMAINS
              end).
    exists l. rewrite domains_fst.
    change (_write_state fs ?d) with (save fs d). rewrite load_save. simpl.
    erewrite with_defaults_lookup_Some
      by (rewrite !lookup_insert_ne by done; apply lookup_insert_eq).
    split; [done|]. subst l.
    destruct (_load_preset_domains_if_available fs) as [l|] eqn:E.
    + split; [by apply (preset_nonempty fs)|by left].
    + split; [done|by right].
  - intros domains. split; [|apply strip_nonblank_nonempty].
    by rewrite set_domains_unfold, domains_fst, load_update, lookup_insert_eq.
  - intros t. rewrite start_uninstall_timer_unfold.
    by apply domains_after_update.
  - rewrite cancel_uninstall_timer_unfold. by apply domains_after_update.
  - intros c. rewrite set_onboarding_completed_unfold.
    by apply domains_after_update.
Qed.

Lemma blocked_domains_nonempty_witness :
  exists l, (get_domains (__init__ fresh_store)).1 = Ok (map JStr l) /\ l <> []
            /\ (_load_preset_domains_if_available fresh_store = Some l
                \/ (_load_preset_domains_if_available fresh_store = None
                    /\ l = DEFAULT_DOMAINS)).
Proof.
  apply (blocked_domains_nonempty fresh_store). reflexivity.
Defined.

(* ===================================================================== *)
(** * The gated handlers and the timer *)
(* ===================================================================== *)

Section Handlers.

Implicit Types (w : world) (fs : state_fs) (now : Q).

Lemma with_store_same w : with_store w (store w) = w.
Proof. by destruct w. Qed.

Lemma started_snd fs : (get_uninstall_started_at fs).2 = (load fs).2.
Proof. by rewrite get_uninstall_started_at_unfold. Qed.

Lemma load_snd_save fs (data : dict) : (load (save fs data)).2 = save fs data.
Proof. by rewrite load_save. Qed.

(** A timer that is ready was read from a state file that parses, so
    reading it wrote nothing. *)
Lemma ready_load_snd fs now (delay : Z) :
  (uninstall_ready fs now delay).1 = true -> (load fs).2 = fs.
Proof.
  rewrite ready_fst. destruct (parsed_state fs) as [d|] eqn:E.
  - by rewrite (load_parsed _ _ E).
  - by rewrite (load_unparsed _ E).
Qed.

Lemma ready_pair fs now (delay : Z) :
  (uninstall_ready fs now delay).1 = true -> uninstall_ready fs now delay = (true, fs).
Proof.
  intros H. pose proof (ready_load_snd _ _ _ H) as Hs.
  rewrite uninstall_ready_unfold in *. simpl in H. by rewrite H, Hs.
Qed.

Lemma update_status_saved fs (data : dict) (h : hosts_fs) :
  _update_status {| store := save fs data; hosts := h |}
  = {| store := save fs data; hosts := h |}.
Proof.
  unfold _update_status, with_store. cbn [store hosts].
  by rewrite started_snd, load_snd_save.
Qed.

Lemma require_timer_ready_ready w now resp :
  (uninstall_ready (store w) now UNINSTALL_DELAY_SECONDS).1 = true ->
  _require_timer_ready w now resp = (true, w).
Proof.
  intros H. unfold _require_timer_ready.
  by rewrite (ready_pair _ _ _ H), with_store_same.
Qed.

Lemma started_after_set_domains fs (domains : list pystr) :
  (get_uninstall_started_at (set_domains fs domains)).1
  = (get_uninstall_started_at fs).1.
Proof.
  rewrite !started_fst, set_domains_unfold, load_update. unfold started_of.
  rewrite lookup_insert_ne; [done|]. apply keys_distinct.
Qed.

End Handlers.

(** C6, as the specification words it, fails. Fifteen minutes after the
    timer was started the gate is open; turning blocking off then fails
    with [PermissionError] on the hosts file, and the timer is still set
    afterwards. Editing the domain list from the same state succeeds and
    leaves the timer set as well. *)
Lemma proceed_uninstall_failure_counterexample :
  (uninstall_ready (store ready_world) 900 UNINSTALL_DELAY_SECONDS).1 = true
  /\ remove_block (hosts ready_world) = Raise PermissionError
  /\ (get_uninstall_started_at (store (_proceed_uninstall ready_world 900))).1 = Some 0%Q
  /\ (get_uninstall_started_at
        (store (_edit_domains ready_world 900 No (Some (py "a.example"))))).1 = Some 0%Q
  /\ ~ (get_uninstall_started_at (store (_proceed_uninstall ready_world 900))).1 = None.
Proof.
  assert ((get_uninstall_started_at (store (_proceed_uninstall ready_world 900))).1
          = Some 0%Q) as H by by vm_compute.
  split; [by vm_compute|]. split; [by vm_compute|]. split; [exact H|].
  split; [by vm_compute|]. by rewrite H.
Qed.

(** C6, as the code has it. From the Ready state: turning blocking off, and
    uninstalling once confirmed, cancel the timer when [remove_block]
    succeeds, and change neither the store nor the hosts file when it
    raises; an uninstall that is not confirmed changes nothing; editing the
    domain list, accepted or dismissed, leaves the hosts file and the
    stored start timestamp as they were. *)
Theorem gated_handlers_timer (w : world) (now : Q) :
  (uninstall_ready (store w) now UNINSTALL_DELAY_SECONDS).1 = true ->
  (forall h, remove_block (hosts w) = Ok h ->
     _proceed_uninstall w now
     = {| store := cancel_uninstall_timer (store w); hosts := h |}
     /\ (forall resp, _uninstall_app w now resp Yes
                      = {| store := cancel_uninstall_timer (store w); hosts := h |})
     /\ (get_uninstall_started_at (cancel_uninstall_timer (store w))).1 = None)
  /\ (forall e, remove_block (hosts w) = Raise e ->
        _proceed_uninstall w now = w
        /\ (forall resp, _uninstall_app w now resp Yes = w))
  /\ (forall resp, _uninstall_app w now resp No = w)
  /\ (forall resp edited,
        hosts (_edit_domains w now resp edited) = hosts w
        /\ (get_uninstall_started_at (store (_edit_domains w now resp edited))).1
           = (get_uninstall_started_at (store w)).1).
Proof.
  intros Hready.
  pose proof (ready_pair _ _ _ Hready) as Hpair.
  pose proof (ready_load_snd _ _ _ Hready) as Hload.
  split; [|split; [|split]].
  - intros h Hh. split; [|split].
    + unfold _proceed_uninstall. rewrite Hpair, Hh. simpl.
      rewrite cancel_uninstall_timer_unfold.
      apply update_status_saved.
    + intros resp. unfold _uninstall_app.
      by rewrite (require_timer_ready_ready _ _ _ Hready), Hh.
    + apply started_after_cancel.
  - intros e He. split.
    + unfold _proceed_uninstall. rewrite Hpair, He. simpl.
      unfold _update_status. rewrite with_store_same, started_snd, Hload.
      apply with_store_same.
    + intros resp. unfold _uninstall_app.
      by rewrite (require_timer_ready_ready _ _ _ Hready), He.
  - intros resp. unfold _uninstall_app.
    by rewrite (require_timer_ready_ready _ _ _ Hready).
  - intros resp edited. unfold _edit_domains.
    rewrite (require_timer_ready_ready _ _ _ Hready). simpl.
    rewrite get_domains_unfold, Hload.
    destruct (_ ≫= dialog_init); [|by rewrite with_store_same].
    destruct edited as [text|]; [|by rewrite with_store_same].
    assert (_update_status
              (with_store w (set_domains (store w) (dialog_get_domains text)))
            = with_store w (set_domains (store w) (dialog_get_domains text))) as ->
      by (rewrite set_domains_unfold; apply update_status_saved).
    split; [done|]. cbn [with_store store].
    apply started_after_set_domains.
Qed.

Lemma gated_handlers_timer_witness :
  _proceed_uninstall ready_world 900 = ready_world
  /\ (forall resp, _uninstall_app ready_world 900 resp Yes = ready_world).
Proof.
  apply (gated_handlers_timer ready_world 900) with (e := PermissionError).
  - vm_compute. reflexivity.
  - vm_compute. reflexivity.
Defined.

(* ===================================================================== *)
(** * Further properties: the expanded domain set *)
(* ===================================================================== *)

Section ExpandedSet.

Implicit Types (s t d x : pystr) (domains : list pystr).

Lemma lstrip_fixed t :
  (forall c t', t = c :: t' -> isspace c = false) -> lstrip t = t.
Proof.
  destruct t as [|c t]; [done|]. intros H. simpl. by rewrite (H c t).
Qed.

(** A string that neither begins nor ends with white space is its own
    stripped form. *)
Lemma strip_fixed t :
  (forall c t', t = c :: t' -> isspace c = false) ->
  (forall c t', t = t' ++ [c] -> isspace c = false) ->
  strip t = t.
Proof.
  intros Hhd Hlast. unfold strip, rstrip. rewrite (lstrip_fixed t Hhd).
  rewrite lstrip_fixed; [apply rev_involutive|].
  intros c r Hr. apply (Hlast c (rev r)).
  apply (f_equal (@rev N)) in Hr. by rewrite rev_involutive in Hr.
Qed.

Lemma strip_idemp s : strip (strip s) = strip s.
Proof. apply strip_fixed; apply strip_ends. Qed.

Lemma www_strip_fixed s : strip s <> [] -> strip (py "www." ++ strip s) = py "www." ++ strip s.
Proof.
  intros Hne. apply strip_fixed.
  - by intros c t' [= <- _].
  - intros c t' H. destruct (exists_last Hne) as (s0 & c0 & Hs).
    rewrite Hs, app_assoc in H. apply app_inj_tail in H as [_ <-].
    by apply (proj2 (strip_ends s) c0 s0).
Qed.

(** Every member of the expansion is its own stripped form. *)
Lemma expands_to_fixed d x : expands_to d x -> x <> [] /\ strip x = x.
Proof.
  intros (Hne & [->|[_ ->]]).
  - split; [done|apply strip_idemp].
  - split; [done|by apply www_strip_fixed].
Qed.

(** The result depends only on which members the loop adds. *)
Lemma expand_domains_ext domains domains' :
  (forall x, (exists d, d ∈ domains /\ expands_to d x)
             <-> (exists d, d ∈ domains' /\ expands_to d x)) ->
  _expand_domains domains = _expand_domains domains'.
Proof.
  intros H. unfold _expand_domains. f_equal. f_equal.
  apply set_eq. intros x. rewrite !expand_fold_elem_of.
  split; (intros [Hx|Hx]; [by apply elem_of_empty in Hx|right; by apply H]).
Qed.

End ExpandedSet.

(** X1. The order of the raw list and repeated entries do not matter: two lists
    with the same entries expand to the same list. *)
Theorem expand_domains_same_entries (domains domains' : list pystr) :
  (forall d, d ∈ domains <-> d ∈ domains') ->
  _expand_domains domains = _expand_domains domains'.
Proof.
  intros H. apply expand_domains_ext. intros x.
  split; intros (d & Hd & Hx); exists d; (split; [by apply H|done]).
Qed.

Lemma expand_domains_same_entries_witness :
  _expand_domains [py "b.org"; py "a.com"; py "b.org"]
  = _expand_domains [py "a.com"; py "b.org"].
Proof.
  apply (expand_domains_same_entries
           [py "b.org"; py "a.com"; py "b.org"] [py "a.com"; py "b.org"]).
  intros d. rewrite !elem_of_cons. rewrite elem_of_nil. tauto.
Defined.

(** X2. Expanding an expanded list changes nothing. *)
Theorem expand_domains_idempotent (domains : list pystr) :
  _expand_domains (_expand_domains domains) = _expand_domains domains.
Proof.
  apply expand_domains_ext. intros x. split.
  - intros (d & Hd & Hne & Hx).
    apply expand_domains_elem_of in Hd as (e & He & Hd).
    destruct (expands_to_fixed _ _ Hd) as [_ Hfix]. rewrite Hfix in *.
    destruct Hx as [->|[Hnw ->]]; [by exists e|].
    exists e. split; [done|].
    destruct Hd as (Hne' & [->|[_ ->]]).
    + split; [done|by right].
    + by rewrite startswith_app in Hnw.
  - intros (d & Hd & Hne & Hx).
    exists (strip d). split.
    + apply expand_domains_elem_of. exists d. split; [done|]. split; [done|by left].
    + unfold expands_to. by rewrite strip_idemp.
Qed.

(** X3. The invariant of an expanded set: every member is non-empty and free
    of white space at its two ends, and with every member that does not
    start with ["www."] the set holds its ["www."] form. *)
Theorem expand_domains_invariant (domains : list pystr) (x : pystr) :
  x ∈ _expand_domains domains ->
  x <> [] /\ strip x = x
  /\ (startswith (py "www.") x = false -> py "www." ++ x ∈ _expand_domains domains).
Proof.
  intros (d & Hd & Hx)%expand_domains_elem_of.
  destruct (expands_to_fixed _ _ Hx) as [Hne Hfix].
  split; [done|]. split; [done|]. intros Hnw.
  apply expand_domains_elem_of. exists d. split; [done|].
  destruct Hx as (Hne' & [->|[_ ->]]).
  - split; [done|by right].
  - by rewrite startswith_app in Hnw.
Qed.

Lemma expand_domains_invariant_witness :
  py "a.com" <> [] /\ strip (py "a.com") = py "a.com"
  /\ (startswith (py "www.") (py "a.com") = false ->
      py "www." ++ py "a.com" ∈ _expand_domains [py " a.com "]).
Proof.
  apply (expand_domains_invariant [py " a.com "] (py "a.com")).
  apply (bool_decide_unpack _). vm_compute. reflexivity.
Defined.

(* ===================================================================== *)
(** * Further properties: the block on disk *)
(* ===================================================================== *)

Section BlockOnDisk.

Implicit Types (content kept sep p l tail : pystr) (lines expanded domains : list pystr).



Lemma join_lines_text lines : lines <> [] -> join NL lines ++ NL = lines_text lines.
Proof.
  unfold lines_text. induction lines as [|l lines IH]; [done|]. intros _.
  destruct lines as [|l' lines]; [simpl; by rewrite app_nil_r|].
  rewrite join_cons by done. cbn [map concat] in *.
  rewrite <- IH by done. by rewrite <- !app_assoc.
Qed.

Lemma block_for_body domains :
  block_for domains
  = BLOCK_START ++ block_body (_expand_domains domains) ++ BLOCK_END ++ NL.
Proof.
  unfold block_for, block_body, block_lines.
  fold (entry_lines (_expand_domains domains)).
  set (L := COMMENT_PURPOSE :: COMMENT_REMOVAL :: entry_lines (_expand_domains domains)).
  change ([BLOCK_START; COMMENT_PURPOSE; COMMENT_REMOVAL]
          ++ entry_lines (_expand_domains domains) ++ [BLOCK_END])
    with (BLOCK_START :: L ++ [BLOCK_END]).
  rewrite join_cons by done. rewrite join_snoc by done.
  change (lines_text ([] :: L)) with (NL ++ lines_text L).
  rewrite <- (join_lines_text L) by done.
  by rewrite <- !app_assoc.
Qed.

Lemma contains_lines_text sep lines tail :
  10%N ∉ sep ->
  contains sep (lines_text lines ++ tail)
  = existsb (contains sep) lines || contains sep tail.
Proof.
  intros Hsep. unfold lines_text. induction lines as [|l lines IH]; [done|].
  cbn [map concat existsb]. rewrite <- !app_assoc. unfold NL at 1. cbn [app].
  rewrite contains_past_char by done. by rewrite IH, orb_assoc.
Qed.

(** A prefix that does not hold the first character of the separator
    cannot begin an occurrence. *)
Lemma contains_after_prefix (x : N) sep p l :
  x ∉ p -> contains (x :: sep) (p ++ l) = contains (x :: sep) l.
Proof.
  induction p as [|c p IH]; [done|]. intros [Hc Hp]%not_elem_of_cons.
  cbn [app contains startswith]. rewrite IH by done.
  destruct (N.eqb_spec x c); [congruence|done].
Qed.

Lemma newline_not_in_end : 10%N ∉ BLOCK_END.
Proof. apply (bool_decide_unpack _). by vm_compute. Qed.

Lemma entry_lines_no_end expanded :
  (forall d, d ∈ expanded -> plain d) ->
  existsb (contains BLOCK_END) (entry_lines expanded) = false.
Proof.
  unfold entry_lines. induction expanded as [|d expanded IH]; [done|]. intros H.
  assert (contains BLOCK_END d = false) as Hd
    by (apply contains_false_not_occurs, H; left).
  cbn [flat_map app existsb].
  change BLOCK_END with (35%N :: tl BLOCK_END) at 1 2.
  rewrite !contains_after_prefix
    by (apply (bool_decide_unpack _); by vm_compute).
  change (35%N :: tl BLOCK_END) with BLOCK_END. rewrite Hd. simpl.
  apply IH. intros d' Hd'. apply H. by right.
Qed.


(** The end marker does not begin inside the body of a block of plain
    domains. *)
Lemma block_body_no_end expanded :
  (forall d, d ∈ expanded -> plain d) ->
  contains BLOCK_END (block_body expanded ++ removelast BLOCK_END) = false.
Proof.
  intros H. unfold block_body.
  rewrite contains_lines_text by apply newline_not_in_end.
  cbn [existsb]. rewrite (entry_lines_no_end _ H). by vm_compute.
Qed.






Lemma written_has_markers kept domains :
  contains BLOCK_START (newline_terminated kept ++ block_for domains) = true
  /\ contains BLOCK_END (newline_terminated kept ++ block_for domains) = true.
Proof.
  rewrite block_for_body. split; apply contains_spec.
  - by eexists _, _.
  - exists (newline_terminated kept ++ BLOCK_START
            ++ block_body (_expand_domains domains)), NL.
    by rewrite <- !app_assoc.
Qed.


(** Splicing the block out of such a file leaves the text before it and
    the line feed that ended the end-marker line. *)
Lemma splice_written kept domains :
  contains BLOCK_START kept = false ->
  (forall d, d ∈ _expand_domains domains -> plain d) ->
  ('(before, rest) ← unpack2 (split1 BLOCK_START
                                (newline_terminated kept ++ block_for domains));
   '(_, after) ← unpack2 (split1 BLOCK_END rest);
   Ok (before ++ after))
  = Ok (newline_terminated kept ++ NL).
Proof.
  intros Hs Hp. rewrite block_for_body.
  rewrite split1_leftmost
    by (apply BLOCK_START_nonempty || by apply no_start_before_block).
  cbn [unpack2 mbind result_bind].
  rewrite split1_leftmost
    by (apply BLOCK_END_nonempty || by apply block_body_no_end).
  done.
Qed.

Lemma remove_block_bind content :
  remove_block (hosts_file content)
  = if contains BLOCK_START content && contains BLOCK_END content then
      kept ← ('(before, rest) ← unpack2 (split1 BLOCK_START content);
              '(_, after) ← unpack2 (split1 BLOCK_END rest);
              Ok (before ++ after));
      Ok (hosts_file kept)
    else Ok (hosts_file content).
Proof.
  rewrite remove_block_file.
  destruct (contains BLOCK_START content && contains BLOCK_END content); [|done].
  destruct (unpack2 (split1 BLOCK_START content)) as [[before rest]|]; [|done].
  cbn [mbind result_bind].
  by destruct (unpack2 (split1 BLOCK_END rest)) as [[? after]|].
Qed.



(** [apply_block] followed by [remove_block], on any file without a start
    marker and for any list of plain domains: what is left is the text
    that was there, ended by a line feed unless it was empty, and then one
    more line feed. It is never the text that was there. *)
Lemma apply_then_remove_text content domains :
  contains BLOCK_START content = false ->
  (forall d, d ∈ _expand_domains domains -> plain d) ->
  (h ← apply_block (hosts_file content) domains; remove_block h)
  = Ok (hosts_file (newline_terminated content ++ NL))
  /\ newline_terminated content ++ NL <> content.
Proof.
  intros Hs Hp. split.
  - rewrite (apply_block_no_start _ _ Hs). cbn [mbind result_bind].
    fold (block_for domains). rewrite remove_block_bind.
    destruct (written_has_markers content domains) as [-> ->]. cbn [andb].
    by rewrite splice_written.
  - intros E. apply (f_equal (@length N)) in E. rewrite length_app in E.
    pose proof (newline_terminated_length content). simpl in E. lia.
Qed.

End BlockOnDisk.









(** X7. When both markers occur in the file but no end marker follows the
    first start marker, [apply_block] and [remove_block] raise
    [ValueError] (the second unpacking gets one value) and write nothing,
    whether or not the file may be written; [is_block_active] does not
    raise, and takes everything after the start marker as the block
    section. *)
Theorem markers_out_of_order
    (h : hosts_fs) (content pre rest : pystr) (domains : list pystr) :
  _read_hosts h = Ok content ->
  content = pre ++ BLOCK_START ++ rest ->
  ~ occurs_in BLOCK_START (pre ++ removelast BLOCK_START) ->
  occurs_in BLOCK_END content ->
  ~ occurs_in BLOCK_END rest ->
  apply_block h domains = Raise ValueError
  /\ remove_block h = Raise ValueError
  /\ exists b, is_block_active h domains = Ok b
               /\ (b = true <-> covers rest (_expand_domains domains)).
Proof.
  intros Hr Hc Hfirst He%contains_spec Hno.
  assert (contains BLOCK_START content = true) as Hs
    by (apply contains_spec; by exists pre, rest).
  assert (split1 BLOCK_START content = [pre; rest]) as Hsplit
    by (rewrite Hc; apply split1_leftmost;
        [apply BLOCK_START_nonempty|by apply contains_false_not_occurs]).
  assert (split1 BLOCK_END rest = [rest]) as Hsplit'
    by by apply split1_not_contains, contains_false_not_occurs.
  split; [|split].
  - unfold apply_block. rewrite Hr. cbn [mbind result_bind].
    rewrite Hs, He, Hsplit. cbn [andb unpack2 mbind result_bind].
    by rewrite Hsplit'.
  - unfold remove_block. rewrite Hr. cbn [mbind result_bind].
    rewrite Hs, He, Hsplit. cbn [andb unpack2 mbind result_bind].
    by rewrite Hsplit'.
  - rewrite (is_block_active_unfold _ _ _ Hr), Hs, He. cbn [negb orb].
    assert (block_section_of content rest) as Hsec
      by (exists pre, rest; split; [done|]; split; [done|]; by right).
    rewrite (selected_section_of _ _ Hsec). cbn [mbind result_bind].
    eexists. split; [done|]. apply covers_spec.
Qed.

Lemma markers_out_of_order_witness :
  apply_block (hosts_file (BLOCK_END ++ NL ++ BLOCK_START)) [py "example.com"]
  = Raise ValueError
  /\ remove_block (hosts_file (BLOCK_END ++ NL ++ BLOCK_START)) = Raise ValueError
  /\ exists b,
       is_block_active (hosts_file (BLOCK_END ++ NL ++ BLOCK_START)) [py "example.com"]
       = Ok b
       /\ (b = true <-> covers [] (_expand_domains [py "example.com"])).
Proof.
  apply (markers_out_of_order
           (hosts_file (BLOCK_END ++ NL ++ BLOCK_START))
           (BLOCK_END ++ NL ++ BLOCK_START) (BLOCK_END ++ NL) []).
  - reflexivity.
  - vm_compute. reflexivity.
  - apply contains_false_not_occurs. vm_compute. reflexivity.
  - exists [], (NL ++ BLOCK_START). reflexivity.
  - apply contains_false_not_occurs. vm_compute. reflexivity.
Defined.

(** X8. Without write permission on the hosts file, [apply_block] never
    succeeds, and [remove_block] succeeds only when it has nothing to
    remove, leaving the file as it is. *)
Theorem no_write_permission (h : hosts_fs) (domains : list pystr) :
  hosts_writable h = false ->
  (forall h', apply_block h domains <> Ok h')
  /\ (forall h', remove_block h = Ok h' -> h' = h).
Proof.
  intros Hw. split; intros h'.
  - unfold apply_block. destruct (_read_hosts h) as [content|]; [|done].
    cbn [mbind result_bind].
    destruct (if contains BLOCK_START content && contains BLOCK_END content
              then _ else _) as [kept|]; [|done].
    cbn [mbind result_bind]. unfold _write_hosts. by rewrite Hw.
  - unfold remove_block. destruct (_read_hosts h) as [content|]; [|done].
    cbn [mbind result_bind].
    destruct (contains BLOCK_START content && contains BLOCK_END content);
      [|by intros [= <-]].
    destruct (unpack2 (split1 BLOCK_START content)) as [[before rest]|]; [|done].
    cbn [mbind result_bind].
    destruct (unpack2 (split1 BLOCK_END rest)) as [[x after]|]; [|done].
    cbn [mbind result_bind]. unfold _write_hosts. by rewrite Hw.
Qed.

Lemma no_write_permission_witness :
  (forall h', apply_block locked_hosts [py "example.com"] <> Ok h')
  /\ (forall h', remove_block locked_hosts = Ok h' -> h' = locked_hosts).
Proof.
  apply (no_write_permission locked_hosts [py "example.com"]). reflexivity.
Defined.

(* ===================================================================== *)
(** * Further properties: the state store *)
(* ===================================================================== *)

Section StoreFields.

Implicit Types (fs : state_fs) (d data state : dict) (k : pystr) (v : json).

Lemma lookup_setdefault d k v k' :
  setdefault d k v !! k'
  = match d !! k' with
    | Some x => Some x
    | None => if decide (k = k') then Some v else None
    end.
Proof.
  unfold setdefault. destruct (d !! k) as [x|] eqn:E.
  - destruct (d !! k') eqn:E'; [done|].
    destruct (decide (k = k')) as [->|]; [congruence|done].
  - destruct (decide (k = k')) as [<-|Hne].
    + by rewrite lookup_insert_eq, E.
    + rewrite lookup_insert_ne by done. by destruct (d !! k').
Qed.

Lemma onboarding_fst fs :
  (is_onboarding_completed fs).1
  = truthy (default (JBool false) ((load fs).1 !! K_ONBOARDED)).
Proof. unfold is_onboarding_completed. by destruct (load fs). Qed.

Lemma started_after_update fs k v :
  k <> K_STARTED ->
  (get_uninstall_started_at (save (load fs).2 (<[k := v]> (load fs).1))).1
  = (get_uninstall_started_at fs).1.
Proof.
  intros Hk. rewrite !started_fst, load_update. unfold started_of.
  by rewrite lookup_insert_ne.
Qed.

Lemma onboarding_after_update fs k v :
  k <> K_ONBOARDED ->
  (is_onboarding_completed (save (load fs).2 (<[k := v]> (load fs).1))).1
  = (is_onboarding_completed fs).1.
Proof.
  intros Hk. rewrite !onboarding_fst, load_update.
  by rewrite lookup_insert_ne.
Qed.

Lemma init_first_run fs :
  state_json fs = None ->
  exists data,
    __init__ fs = save fs data
    /\ data !! K_STARTED = Some JNull
    /\ data !! K_ONBOARDED = Some (JBool false).
Proof.
  intros Hnone. unfold __init__. rewrite Hnone. destruct keys_distinct as (_ & _ & H).
  eexists. split; [done|]. split.
  - rewrite lookup_insert_ne by done. apply lookup_insert_eq.
  - apply lookup_insert_eq.
Qed.

End StoreFields.

(** X9. When [state.json] parses to an object, [load] writes nothing, returns
    every field of the file with the value it has there, whatever its type,
    gives each of the three fields that is missing its default, and adds
    nothing else. *)
Theorem load_keeps_fields (fs : state_fs) (d : dict) :
  state_json fs = Some (Json (JDict d)) ->
  (load fs).2 = fs
  /\ (forall k v, d !! k = Some v -> (load fs).1 !! k = Some v)
  /\ (d !! K_DOMAINS = None -> (load fs).1 !! K_DOMAINS = Some (jstrs DEFAULT_DOMAINS))
  /\ (d !! K_STARTED = None -> (load fs).1 !! K_STARTED = Some JNull)
  /\ (d !! K_ONBOARDED = None -> (load fs).1 !! K_ONBOARDED = Some (JBool false))
  /\ (forall k, k <> K_DOMAINS -> k <> K_STARTED -> k <> K_ONBOARDED ->
                (load fs).1 !! k = d !! k).
Proof.
  intros Hfs. destruct keys_distinct as (H1 & H2 & H3).
  rewrite (load_parsed fs d) by (unfold parsed_state; by rewrite Hfs).
  cbn [fst snd]. split; [done|]. split; [apply with_defaults_lookup_Some|].
  unfold with_defaults. repeat split.
  - intros Hk. rewrite !lookup_setdefault, Hk.
    repeat case_decide; congruence.
  - intros Hk. rewrite !lookup_setdefault, Hk.
    repeat case_decide; congruence.
  - intros Hk. rewrite !lookup_setdefault, Hk.
    repeat case_decide; congruence.
  - intros k Hk1 Hk2 Hk3. rewrite !lookup_setdefault.
    destruct (d !! k); [done|]. repeat case_decide; congruence.
Qed.

Lemma load_keeps_fields_witness :
  (load ready_store).2 = ready_store
  /\ (forall k v, (<[K_STARTED := JNum 0]> DEFAULT_STATE) !! k = Some v ->
                  (load ready_store).1 !! k = Some v).
Proof.
  pose proof (load_keeps_fields ready_store (<[K_STARTED := JNum 0]> DEFAULT_STATE)
                eq_refl) as (H1 & H2 & _).
  exact (conj H1 H2).
Defined.

(** X10. Whatever the state file holds, after one [load] the file parses to an
    object, and a second [load] returns the same state and writes
    nothing; the preset file is never touched. *)
Theorem load_stable (fs : state_fs) :
  load (load fs).2 = load fs
  /\ (exists d, state_json (load fs).2 = Some (Json (JDict d)))
  /\ preset_txt (load fs).2 = preset_txt fs.
Proof.
  split; [apply load_again|].
  destruct (parsed_state fs) as [d|] eqn:E.
  - rewrite (load_parsed _ _ E). cbn [snd]. split; [|done].
    exists d. unfold parsed_state in E.
    by destruct (state_json fs) as [[[]| |]|]; try done; injection E as ->.
  - rewrite (load_unparsed _ E). split; [by eexists|done].
Qed.

(** X11. The stored start timestamp is changed by the timer operations only:
    [set_domains] and [set_onboarding_completed] leave it as it was. *)
Theorem timestamp_kept_by_other_setters (fs : state_fs) :
  (forall domains,
     (get_uninstall_started_at (set_domains fs domains)).1
     = (get_uninstall_started_at fs).1)
  /\ (forall c,
        (get_uninstall_started_at (set_onboarding_completed fs c)).1
        = (get_uninstall_started_at fs).1).
Proof.
  destruct keys_distinct as (H1 & H2 & H3). split.
  - intros domains. rewrite set_domains_unfold. by apply started_after_update.
  - intros c. rewrite set_onboarding_completed_unfold.
    apply started_after_update. congruence.
Qed.

(** X12. [is_onboarding_completed] returns what [set_onboarding_completed]
    stored, and [set_domains], [start_uninstall_timer] and
    [cancel_uninstall_timer] leave it as it was. *)
Theorem onboarding_flag_round_trip (fs : state_fs) :
  (forall c, (is_onboarding_completed (set_onboarding_completed fs c)).1 = c)
  /\ (forall domains,
        (is_onboarding_completed (set_domains fs domains)).1
        = (is_onboarding_completed fs).1)
  /\ (forall t,
        (is_onboarding_completed (start_uninstall_timer fs t)).1
        = (is_onboarding_completed fs).1)
  /\ (is_onboarding_completed (cancel_uninstall_timer fs)).1
     = (is_onboarding_completed fs).1.
Proof.
  destruct keys_distinct as (H1 & H2 & H3). split; [|split; [|split]].
  - intros c.
    rewrite set_onboarding_completed_unfold, onboarding_fst, load_update.
    by rewrite lookup_insert_eq.
  - intros domains. rewrite set_domains_unfold. by apply onboarding_after_update.
  - intros t. rewrite start_uninstall_timer_unfold. by apply onboarding_after_update.
  - rewrite cancel_uninstall_timer_unfold. by apply onboarding_after_update.
Qed.

(** X13. First run: when there is no state file, [__init__] leaves a state with
    no pending timer and onboarding not completed, and no temporary file
    beside it. In every case a second [__init__] changes nothing, and an
    existing state file, readable or not, is left as it is. *)
Theorem init_first_run_state (fs : state_fs) :
  (state_json fs = None ->
   (get_uninstall_started_at (__init__ fs)).1 = None
   /\ (is_onboarding_completed (__init__ fs)).1 = false
   /\ state_tmp (__init__ fs) = None)
  /\ __init__ (__init__ fs) = __init__ fs
  /\ (state_json fs <> None -> __init__ fs = fs).
Proof.
  split; [|split].
  - intros Hnone. destruct (init_first_run _ Hnone) as (data & -> & Hs & Ho).
    rewrite started_fst, onboarding_fst, load_save. cbn [fst].
    unfold started_of.
    rewrite (with_defaults_lookup_Some _ _ _ Hs).
    by rewrite (with_defaults_lookup_Some _ _ _ Ho).
  - destruct (state_json fs) as [t|] eqn:E.
    + assert (__init__ fs = fs) as -> by (unfold __init__; by rewrite E).
      unfold __init__. by rewrite E.
    + destruct (init_first_run _ E) as (data & -> & _). reflexivity.
  - intros Hsome. unfold __init__. by destruct (state_json fs).
Qed.

Lemma init_first_run_state_witness :
  (get_uninstall_started_at (__init__ fresh_store)).1 = None
  /\ (is_onboarding_completed (__init__ fresh_store)).1 = false
  /\ state_tmp (__init__ fresh_store) = None.
Proof.
  apply (init_first_run_state fresh_store). reflexivity.
Defined.

(* ===================================================================== *)
(** * Further properties: the preset file *)
(* ===================================================================== *)

Section PresetFile.

Implicit Types (fs : state_fs) (domains lines : list pystr).

Lemma filter_map_strip lines :
  map strip
      (filter (fun ln => strip ln <> [] /\ startswith (py "#") (strip ln) = false) lines)
  = filter (fun ln => ln <> [] /\ startswith (py "#") ln = false) (map strip lines).
Proof.
  induction lines as [|ln lines IH]; [done|].
  cbn [map]. rewrite !filter_cons.
  destruct (decide (strip ln <> [] /\ startswith (py "#") (strip ln) = false)).
  - rewrite decide_True by done. cbn [map]. by rewrite IH.
  - by rewrite decide_False by done.
Qed.

Lemma selected_populate domains :
  _selected_domains (_populate domains) = map strip domains.
Proof.
  unfold _selected_domains, _populate. destruct domains as [|d domains]; [done|].
  generalize (d :: domains). intros l. induction l as [|x l IH]; [done|].
  cbn [map]. rewrite filter_cons. cbn [item_checkable item_checked].
  rewrite decide_True by done. cbn [map item_text]. by rewrite IH.
Qed.

Lemma load_local_preset_elem_of fs (d : pystr) :
  d ∈ load_local_preset fs ->
  d <> [] /\ startswith (py "#") d = false
  /\ exists raw line, preset_txt fs = Some raw /\ line ∈ splitlines raw /\ d = strip line.
Proof.
  unfold load_local_preset. destruct (preset_txt fs) as [raw|].
  - intros [[Hne Hc] Hin]%list_elem_of_filter.
    apply list_elem_of_In, in_map_iff in Hin as (line & <- & Hline).
    split; [done|]. split; [done|].
    exists raw, line. by rewrite list_elem_of_In.
  - intros H. by apply elem_of_nil in H.
Qed.

Lemma map_strip_fixed domains :
  (forall d, d ∈ domains -> strip d = d) -> map strip domains = domains.
Proof.
  induction domains as [|d domains IH]; [done|]. intros H. cbn [map].
  rewrite (H d) by left. rewrite IH; [done|]. intros d' Hd'. apply H. by right.
Qed.

End PresetFile.

(** X14. The two readers of [presets/adult_domains.txt] agree: the state store
    takes the list [load_local_preset] returns, or nothing when that list is
    empty. Every entry is a line of the file, stripped, that is neither
    blank nor a comment. The onboarding dialog starts with exactly these
    entries selected, and with nothing selected when there are none. *)
Theorem preset_readers_agree (fs : state_fs) :
  (forall l, _load_preset_domains_if_available fs = Some l
             <-> load_local_preset fs = l /\ l <> [])
  /\ (_load_preset_domains_if_available fs = None <-> load_local_preset fs = [])
  /\ (forall d, d ∈ load_local_preset fs ->
        d <> [] /\ strip d = d /\ startswith (py "#") d = false
        /\ exists raw line,
             preset_txt fs = Some raw /\ line ∈ splitlines raw /\ d = strip line)
  /\ _selected_domains (_load_preset fs) = load_local_preset fs.
Proof.
  split; [|split; [|split]].
  - intros l. unfold _load_preset_domains_if_available, load_local_preset.
    destruct (preset_txt fs) as [raw|].
    + destruct (filter _ _) as [|x t]; split; try done.
      * by intros [<- ?].
      * by intros [= <-].
      * by intros [[= <-] _].
    + split; [done|]. by intros [<- ?].
  - unfold _load_preset_domains_if_available, load_local_preset.
    destruct (preset_txt fs) as [raw|]; [|done].
    by destruct (filter _ _).
  - intros d Hd.
    destruct (load_local_preset_elem_of _ _ Hd) as (Hne & Hc & raw & line & Hr & Hl & ->).
    split; [done|]. split; [apply strip_idemp|]. split; [done|].
    by exists raw, line.
  - assert (map strip (load_local_preset fs) = load_local_preset fs) as Hfix.
    { apply map_strip_fixed. intros d Hd.
      destruct (load_local_preset_elem_of _ _ Hd) as (_ & _ & raw & line & _ & _ & ->).
      apply strip_idemp. }
    unfold _load_preset. rewrite <- Hfix. unfold load_local_preset.
    destruct (preset_txt fs) as [raw|]; [|done].
    rewrite selected_populate. f_equal.
    apply filter_map_strip.
Qed.

(* ===================================================================== *)
(** * Further properties: the timer gate in the window *)
(* ===================================================================== *)

Section Gate.

Implicit Types (w : world) (fs : state_fs) (now : Q).

Lemma domains_load_snd fs : (get_domains (load fs).2).1 = (get_domains fs).1.
Proof. by rewrite !domains_fst, load_again. Qed.

Lemma started_load_snd fs :
  (get_uninstall_started_at (load fs).2).1 = (get_uninstall_started_at fs).1.
Proof. by rewrite !started_fst, load_again. Qed.



(** What [_require_timer_ready] returns, by the state of the timer. *)
Lemma require_timer_ready_cases w now resp :
  _require_timer_ready w now resp
  = if (uninstall_ready (store w) now UNINSTALL_DELAY_SECONDS).1
    then (true, with_store w (load (store w)).2)
    else match (get_uninstall_started_at (store w)).1, resp with
         | None, Yes =>
             (false, with_store w (start_uninstall_timer (load (store w)).2 now))
         | _, _ => (false, with_store w (load (store w)).2)
         end.
Proof.
  unfold _require_timer_ready. rewrite uninstall_ready_unfold. cbn [fst].
  destruct (match started_of (load (store w)).1 with
            | Some started => _
            | None => false
            end); [done|].
  rewrite get_uninstall_started_at_unfold, load_again. rewrite started_fst.
  destruct (started_of (load (store w)).1); [done|].
  destruct resp; [|done]. f_equal.
  rewrite start_uninstall_timer_unfold. apply update_status_saved.
Qed.

Lemma domains_after_start fs now :
  (get_domains (start_uninstall_timer fs now)).1 = (get_domains fs).1.
Proof.
  rewrite start_uninstall_timer_unfold. apply domains_after_update.
  apply not_eq_sym, keys_distinct.
Qed.

Lemma require_timer_ready_frame w now resp :
  hosts (_require_timer_ready w now resp).2 = hosts w
  /\ (get_domains (store (_require_timer_ready w now resp).2)).1
     = (get_domains (store w)).1.
Proof.
  rewrite require_timer_ready_cases.
  destruct (uninstall_ready (store w) now UNINSTALL_DELAY_SECONDS).1;
    [|destruct (get_uninstall_started_at (store w)).1; [|destruct resp]];
    cbn [snd with_store store hosts]; (split; [done|]);
    rewrite ?domains_after_start; apply domains_load_snd.
Qed.

End Gate.

(** X15. [_require_timer_ready] answers as [uninstall_ready] does and never
    touches the hosts file. It starts the timer, at the present time, only
    when none is pending and the user answers yes; in every other case the
    stored start timestamp is left as it was. *)
Theorem require_timer_ready_transitions (w : world) (now : Q) (resp : answer) :
  (_require_timer_ready w now resp).1
  = (uninstall_ready (store w) now UNINSTALL_DELAY_SECONDS).1
  /\ hosts (_require_timer_ready w now resp).2 = hosts w
  /\ (get_uninstall_started_at (store (_require_timer_ready w now resp).2)).1
     = match (get_uninstall_started_at (store w)).1, resp with
       | None, Yes => Some now
       | started, _ => started
       end.
Proof.
  split; [|split; [apply require_timer_ready_frame|]];
    rewrite require_timer_ready_cases.
  - destruct (uninstall_ready (store w) now UNINSTALL_DELAY_SECONDS).1; [done|].
    by destruct (get_uninstall_started_at (store w)).1, resp.
  - destruct (uninstall_ready (store w) now UNINSTALL_DELAY_SECONDS).1 eqn:Er.
    + cbn [snd with_store store]. rewrite started_load_snd.
      rewrite ready_fst, <- started_fst in Er.
      by destruct (get_uninstall_started_at (store w)).1.
    + destruct (get_uninstall_started_at (store w)).1 eqn:Es; [|destruct resp];
        cbn [snd with_store store].
      * by rewrite started_load_snd.
      * apply started_after_start.
      * by rewrite started_load_snd.
Qed.

(** X16. While [uninstall_ready] is false, none of the three gated handlers
    changes the hosts file or the stored domain list, whatever the user
    answers or types. *)
Theorem gate_closed (w : world) (now : Q) :
  (uninstall_ready (store w) now UNINSTALL_DELAY_SECONDS).1 = false ->
  (hosts (_proceed_uninstall w now) = hosts w
   /\ (get_domains (store (_proceed_uninstall w now))).1 = (get_domains (store w)).1)
  /\ (forall resp reply,
        hosts (_uninstall_app w now resp reply) = hosts w
        /\ (get_domains (store (_uninstall_app w now resp reply))).1
           = (get_domains (store w)).1)
  /\ (forall resp edited,
        hosts (_edit_domains w now resp edited) = hosts w
        /\ (get_domains (store (_edit_domains w now resp edited))).1
           = (get_domains (store w)).1).
Proof.
  intros Hclosed.
  assert (forall resp, (_require_timer_ready w now resp).1 = false) as Hdenied.
  { intros resp. rewrite require_timer_ready_cases, Hclosed.
    by destruct (get_uninstall_started_at (store w)).1, resp. }
  split; [|split].
  - unfold _proceed_uninstall. rewrite uninstall_ready_unfold in *.
    cbn [fst] in Hclosed. rewrite Hclosed. cbn [negb with_store store hosts].
    split; [done|apply domains_load_snd].
  - intros resp reply. unfold _uninstall_app.
    specialize (Hdenied resp).
    pose proof (require_timer_ready_frame w now resp) as Hframe.
    destruct (_require_timer_ready w now resp) as [ok w'].
    cbn [fst snd] in *. by rewrite Hdenied.
  - intros resp edited. unfold _edit_domains.
    specialize (Hdenied resp).
    pose proof (require_timer_ready_frame w now resp) as Hframe.
    destruct (_require_timer_ready w now resp) as [ok w'].
    cbn [fst snd] in *. by rewrite Hdenied.
Qed.

Lemma gate_closed_witness :
  hosts (_proceed_uninstall ready_world 899) = hosts ready_world
  /\ (get_domains (store (_proceed_uninstall ready_world 899))).1
     = (get_domains (store ready_world)).1.
Proof.
  apply (gate_closed ready_world 899). vm_compute. reflexivity.
Defined.

(* ===================================================================== *)
(** * Further properties: what the window shows *)
(* ===================================================================== *)

Section StatusShown.

Implicit Types (y now started : Binary64.float) (q : Q).

Lemma trunc_zero q :
  (0 < q)%Q ->
  (0 <? Z.quot (Qnum q) (Z.pos (Qden q)))%Z = false <-> (q < 1)%Q.
Proof.
  intros Hpos. destruct q as [n d]. unfold Qlt in *. simpl in *.
  rewrite Z.quot_div_nonneg by lia. rewrite Z.ltb_ge. split; intros H.
  - assert (n / Z.pos d = 0)%Z as E
      by (pose proof (Z.div_pos n (Z.pos d)); lia).
    apply Z.div_small_iff in E; lia.
  - rewrite Z.div_small; lia.
Qed.

Lemma plus_infinity_or_not y :
  y = S754_infinity false \/ y <> S754_infinity false.
Proof. destruct y as [|[]| |]; (by left) || (by right). Qed.

(** [int(max(0, y))] is 0 when [y] is below 1 or not a number, positive
    when [y] is finite and at least 1, and raises on plus infinity. *)
Lemma remaining_seconds_spec y :
  (Binary64.ge_int y 1 = false ->
   exists r, remaining_seconds y = Ok r /\ (0 <? r)%Z = false)
  /\ (Binary64.ge_int y 1 = true -> y <> S754_infinity false ->
      exists r, remaining_seconds y = Ok r /\ (0 <? r)%Z = true)
  /\ (y = S754_infinity false -> remaining_seconds y = Raise OverflowError).
Proof.
  unfold remaining_seconds, Binary64.gt_int, Binary64.int_of_float, Binary64.ge_int.
  unfold inject_Z.
  destruct (Binary64.float_value y) as [q|] eqn:E.
  - destruct (Qle_bool q 0) eqn:E0; cbn [negb].
    + apply Qle_bool_iff in E0. split; [|split].
      * intros _. by exists 0%Z.
      * intros H%Qle_bool_iff _. lra.
      * intros ->. done.
    + assert (0 < q)%Q as Hpos.
      { apply Qnot_le_lt. intros H%Qle_bool_iff. congruence. }
      pose proof (trunc_zero q Hpos) as Hz. split; [|split].
      * intros H. eexists. split; [done|]. apply Hz.
        apply Qnot_le_lt. intros H'%Qle_bool_iff. congruence.
      * intros H%Qle_bool_iff _. eexists. split; [done|].
        destruct (0 <? _)%Z; [done|].
        assert (q < 1)%Q by by apply Hz. lra.
      * intros ->. done.
  - destruct y as [s|[]| |s m e]; try done.
    + split; [|split]; try done. intros _. by exists 0%Z.
    + split; [|split]; try done. intros _. by exists 0%Z.
Qed.

Lemma status_shown_started (val : Binary64.held) now started :
  Binary64.get_uninstall_started_at val = Ok (Some started) ->
  status_shown val now
  = (remaining ← remaining_seconds
                   (Binary64.fsub (Binary64.nearest UNINSTALL_DELAY_SECONDS 0)
                                  (Binary64.fsub now started));
     if (0 <? remaining)%Z
     then Ok (TimerRunning (remaining / 60) (remaining mod 60))
     else Ok TimerDone).
Proof. unfold status_shown. by intros ->. Qed.

End StatusShown.

(** X17. When a number is stored as the start timestamp, the window shows
    "Timer done", and enables the buttons of the gated actions, exactly
    when the float [UNINSTALL_DELAY_SECONDS - (time.time() - started)] is
    not at least 1: below 1, or not a number. [_update_status] raises
    [OverflowError] when that float is plus infinity, and shows the
    running timer otherwise. With a stored NaN the window shows "Timer
    done" at every reading of the clock, while [uninstall_ready] is false
    for every delay. *)
Theorem status_done_window (now : Binary64.float) :
  (forall (val : Binary64.held) (started : Binary64.float),
     Binary64.get_uninstall_started_at val = Ok (Some started) ->
     let rest :=
       Binary64.fsub (Binary64.nearest UNINSTALL_DELAY_SECONDS 0)
                     (Binary64.fsub now started) in
     (status_shown val now = Ok TimerDone <-> Binary64.ge_int rest 1 = false)
     /\ (rest = S754_infinity false -> status_shown val now = Raise OverflowError)
     /\ (Binary64.ge_int rest 1 = true -> rest <> S754_infinity false ->
         exists mins secs, status_shown val now = Ok (TimerRunning mins secs)))
  /\ (forall delay : Z,
        status_shown (Binary64.HFloat S754_nan) now = Ok TimerDone
        /\ Binary64.uninstall_ready (Binary64.HFloat S754_nan) now delay = Ok false).
Proof.
  split.
  - intros val started Hval rest.
    rewrite (status_shown_started val now started Hval). fold rest.
    destruct (remaining_seconds_spec rest) as (Hdone & Hrun & Hinf).
    assert (rest = S754_infinity false ->
            (remaining ← remaining_seconds rest;
             if (0 <? remaining)%Z
             then Ok (TimerRunning (remaining / 60) (remaining mod 60))
             else Ok TimerDone) = Raise OverflowError) as Hraise
      by (intros H; by rewrite (Hinf H)).
    assert (Binary64.ge_int rest 1 = true -> rest <> S754_infinity false ->
            exists mins secs,
              (remaining ← remaining_seconds rest;
               if (0 <? remaining)%Z
               then Ok (TimerRunning (remaining / 60) (remaining mod 60))
               else Ok TimerDone) = Ok (TimerRunning mins secs)) as Hrunning.
    { intros G Hne. destruct (Hrun G Hne) as (r & -> & Hr).
      cbn [mbind result_bind]. rewrite Hr. by eexists _, _. }
    split; [|split; [exact Hraise|exact Hrunning]].
    destruct (Binary64.ge_int rest 1) eqn:G.
    + split; [|done]. intros H.
      destruct (plus_infinity_or_not rest) as [Hi|Hne].
      * by rewrite (Hraise Hi) in H.
      * destruct (Hrunning eq_refl Hne) as (mins & secs & Hr).
        by rewrite Hr in H.
    + split; [done|]. intros _. destruct (Hdone eq_refl) as (r & -> & Hr).
      cbn [mbind result_bind]. by rewrite Hr.
  - intros delay. by destruct now as [|[]| |].
Qed.

Lemma status_done_window_witness :
  status_shown (Binary64.HFloat (Binary64.nearest 0 0)) clock_899_5 = Ok TimerDone
  /\ Binary64.uninstall_ready (Binary64.HFloat (Binary64.nearest 0 0)) clock_899_5
       UNINSTALL_DELAY_SECONDS = Ok false.
Proof.
  split; [|by vm_compute].
  pose proof (status_done_window clock_899_5) as [H _].
  apply (H (Binary64.HFloat (Binary64.nearest 0 0)) (Binary64.nearest 0 0)).
  - reflexivity.
  - vm_compute. reflexivity.
Defined.

(* ===================================================================== *)
(** * Further properties: applying, at launch and from the window *)
(* ===================================================================== *)

Section Applying.

Implicit Types (w : world) (fs : state_fs) (domains : list pystr).








End Applying.






(* ===================================================================== *)
(** * Further properties: installing from the onboarding dialog *)
(* ===================================================================== *)

Section Install.

Implicit Types (w : world) (fs : state_fs) (domains : list pystr).

Lemma domains_after_set_domains fs domains :
  (get_domains (set_domains fs domains)).1 = Ok (map JStr (strip_nonblank domains)).
Proof.
  by rewrite set_domains_unfold, domains_fst, load_update, lookup_insert_eq.
Qed.

Lemma domains_after_onboarding fs (c : bool) :
  (get_domains (set_onboarding_completed fs c)).1 = (get_domains fs).1.
Proof.
  rewrite set_onboarding_completed_unfold. apply domains_after_update.
  apply not_eq_sym, keys_distinct.
Qed.

Lemma onboarding_after_set fs (c : bool) :
  (is_onboarding_completed (set_onboarding_completed fs c)).1 = c.
Proof.
  rewrite set_onboarding_completed_unfold, onboarding_fst, load_update.
  by rewrite lookup_insert_eq.
Qed.

Lemma onboarding_after_set_domains fs domains :
  (is_onboarding_completed (set_domains fs domains)).1 = (is_onboarding_completed fs).1.
Proof.
  rewrite set_domains_unfold. apply onboarding_after_update. apply keys_distinct.
Qed.

Lemma install_unfold w (items : list item) :
  _selected_domains items <> [] ->
  _install w items
  = match apply_block (hosts w) (_selected_domains items) with
    | Ok h =>
        {| store := set_onboarding_completed
                      (set_domains (store w) (_selected_domains items)) true;
           hosts := h |}
    | Raise PermissionError =>
        {| store := set_onboarding_completed
                      (set_domains (store w) (_selected_domains items)) true;
           hosts := hosts w |}
    | Raise _ =>
        {| store := set_domains (store w) (_selected_domains items);
           hosts := hosts w |}
    end.
Proof. unfold _install. by destruct (_selected_domains items). Qed.

End Install.

(** X21. "Install blocking" with nothing selected changes nothing. With a
    selection, the stripped non-blank selected entries are stored as the
    domain list whatever happens next; when [apply_block] succeeds the
    hosts file is the one it returns and onboarding is marked completed;
    when it raises [PermissionError] the hosts file is unchanged and
    onboarding is marked completed all the same; when it raises anything
    else the hosts file is unchanged and the onboarding flag is left as it
    was. *)
Theorem install_outcomes (w : world) (items : list item) :
  (_selected_domains items = [] -> _install w items = w)
  /\ (_selected_domains items <> [] ->
      (get_domains (store (_install w items))).1
      = Ok (map JStr (strip_nonblank (_selected_domains items)))
      /\ (forall h,
            apply_block (hosts w) (_selected_domains items) = Ok h ->
            hosts (_install w items) = h
            /\ (is_onboarding_completed (store (_install w items))).1 = true)
      /\ (apply_block (hosts w) (_selected_domains items) = Raise PermissionError ->
          hosts (_install w items) = hosts w
          /\ (is_onboarding_completed (store (_install w items))).1 = true)
      /\ (forall e,
            e <> PermissionError ->
            apply_block (hosts w) (_selected_domains items) = Raise e ->
            hosts (_install w items) = hosts w
            /\ (is_onboarding_completed (store (_install w items))).1
               = (is_onboarding_completed (store w)).1)).
Proof.
  split.
  - intros Hnil. unfold _install. by rewrite Hnil.
  - intros Hsel. rewrite (install_unfold _ _ Hsel). split; [|split; [|split]].
    + destruct (apply_block _ _) as [h|[]]; cbn [store];
        rewrite ?domains_after_onboarding; apply domains_after_set_domains.
    + intros h ->. cbn [store hosts]. split; [done|apply onboarding_after_set].
    + intros ->. cbn [store hosts]. split; [done|apply onboarding_after_set].
    + intros e He ->. destruct e; try done;
        cbn [store hosts]; (split; [done|apply onboarding_after_set_domains]).
Qed.

Lemma install_outcomes_witness :
  (get_domains (store (_install first_run_world (_populate [py "example.com"])))).1
  = Ok (map JStr (strip_nonblank (_selected_domains (_populate [py "example.com"])))).
Proof.
  apply (install_outcomes first_run_world (_populate [py "example.com"])).
  vm_compute. discriminate.
Defined.

(* ===================================================================== *)
(** * Further properties: editing the list from the window *)
(* ===================================================================== *)

Section Editing.

Implicit Types (w : world) (fs : state_fs) (text : pystr).

Lemma dialog_get_domains_elem_of text (d : pystr) :
  d ∈ dialog_get_domains text -> d <> [] /\ strip d = d.
Proof.
  unfold dialog_get_domains.
  intros [Hne Hin]%list_elem_of_filter.
  apply list_elem_of_In, in_map_iff in Hin as (line & <- & _).
  split; [done|apply strip_idemp].
Qed.

Lemma filter_nonblank_fixed (l : list pystr) :
  (forall d, d ∈ l -> d <> []) -> filter (fun d => d <> []) l = l.
Proof.
  induction l as [|d l IH]; [done|]. intros H.
  rewrite filter_cons, decide_True by (apply H; left).
  f_equal. apply IH. intros d' Hd'. apply H. by right.
Qed.

(** What the dialog returns is stored as it is. *)
Lemma strip_nonblank_dialog text :
  strip_nonblank (dialog_get_domains text) = dialog_get_domains text.
Proof.
  unfold strip_nonblank.
  rewrite map_strip_fixed by (intros d Hd; by apply (dialog_get_domains_elem_of text)).
  apply filter_nonblank_fixed. intros d Hd.
  by apply (dialog_get_domains_elem_of text).
Qed.

End Editing.

Lemma joined_items_strs (domains : list pystr) :
  joined_items (map JStr domains) = Ok domains.
Proof.
  induction domains as [|d domains IH]; [done|].
  cbn [map joined_items]. by rewrite IH.
Qed.

(** An item that is not a string makes the dialog's constructor raise
    [TypeError]: the handler ends there, and nothing is stored. *)
Lemma edit_domains_type_error (w : world) (now : Q) (resp : answer)
    (items : list json) (edited : option pystr) :
  (uninstall_ready (store w) now UNINSTALL_DELAY_SECONDS).1 = true ->
  (get_domains (store w)).1 = Ok items ->
  dialog_init items = Raise TypeError ->
  _edit_domains w now resp edited = w.
Proof.
  intros Hready Hitems Hinit.
  pose proof (ready_load_snd _ _ _ Hready) as Hload.
  unfold _edit_domains.
  rewrite (require_timer_ready_ready _ _ _ Hready). cbn [negb].
  rewrite get_domains_unfold, Hload. rewrite domains_fst in Hitems.
  rewrite Hitems. cbn [mbind result_bind]. rewrite Hinit.
  apply with_store_same.
Qed.

(** X22. From the Ready state, when the stored list is a list of strings,
    accepting the edit dialog stores exactly the stripped, non-blank lines
    of the editor's text (none at all when the text is blank), without
    touching the hosts file; dismissing the dialog changes nothing. *)
Theorem edit_domains_stores_lines (w : world) (now : Q) (resp : answer) :
  (uninstall_ready (store w) now UNINSTALL_DELAY_SECONDS).1 = true ->
  (exists domains : list pystr,
     (get_domains (store w)).1 = Ok (map JStr domains)) ->
  (forall text,
     (get_domains (store (_edit_domains w now resp (Some text)))).1
     = Ok (map JStr (dialog_get_domains text))
     /\ hosts (_edit_domains w now resp (Some text)) = hosts w)
  /\ _edit_domains w now resp None = w.
Proof.
  intros Hready [domains Hitems].
  pose proof (ready_load_snd _ _ _ Hready) as Hload.
  assert (get_domains (store w) = (Ok (map JStr domains), store w)) as Hget
    by (rewrite get_domains_unfold, Hload; rewrite domains_fst in Hitems;
        by rewrite Hitems).
  assert (Ok (map JStr domains) ≫= dialog_init = Ok (join NL domains)) as Hinit
    by (cbn [mbind result_bind]; unfold dialog_init, join_items;
        by rewrite joined_items_strs).
  split.
  - intros text. unfold _edit_domains.
    rewrite (require_timer_ready_ready _ _ _ Hready). cbn [negb].
    rewrite Hget, Hinit.
    assert (_update_status
              (with_store w (set_domains (store w) (dialog_get_domains text)))
            = with_store w (set_domains (store w) (dialog_get_domains text))) as ->
      by (rewrite set_domains_unfold; apply update_status_saved).
    cbn [with_store store hosts]. split; [|done].
    by rewrite domains_after_set_domains, strip_nonblank_dialog.
  - unfold _edit_domains.
    rewrite (require_timer_ready_ready _ _ _ Hready). cbn [negb].
    rewrite Hget, Hinit.
    apply with_store_same.
Qed.

Lemma edit_domains_stores_lines_witness :
  (forall text,
     (get_domains (store (_edit_domains ready_world 900 No (Some text)))).1
     = Ok (map JStr (dialog_get_domains text))
     /\ hosts (_edit_domains ready_world 900 No (Some text)) = hosts ready_world)
  /\ _edit_domains ready_world 900 No None = ready_world.
Proof.
  apply (edit_domains_stores_lines ready_world 900 No).
  - vm_compute. reflexivity.
  - exists DEFAULT_DOMAINS. vm_compute. reflexivity.
Defined.
